(** * DukeUltrasound dataset builder: shallow embedding and verified properties

    Source: [tensorflow_datasets/image/duke_ultrasound.py].

    The builder has two pieces of logic of its own:
    - [_split_generators] turns the download manager's answer into one
      split descriptor per manifest;
    - [_generate_examples] turns every manifest row, together with the
      matrix file it points to, into a [(key, record)] pair.

    Everything else (download, CSV parsing, [.mat] decoding, sharding) is
    the framework's; it appears here as the [World] the builder reads from.

    Numbers.  NumPy arrays hold IEEE floats.  A float is a real number or
    one of [inf], [-inf], [nan]; every operation rounds its exact result
    to the format it computes in and overflows to an infinity beyond the
    format's largest value.  The formats and the C library's [hypot] and
    [log10] are not fixed: they are the [Arith] the generator is run with,
    known through the laws listed there, which the IEEE binary formats
    under rounding to nearest satisfy.  The sign of zero is not tracked. *)

From Stdlib Require Import Reals Lra.
From Stdlib Require Import Ascii String.
From stdpp Require Import gmap strings list.

(** ** Python exceptions and the result of a call that may raise *)

Inductive PyError : Type :=
| KeyError (key : string)
| TypeError
| ValueError
| NotFoundError (path : string).

Inductive Result (A : Type) : Type :=
| Ok (a : A)
| Raise (e : PyError).
Arguments Ok {A} a.
Arguments Raise {A} e.

Definition bind {A B : Type} (r : Result A) (k : A -> Result B) : Result B :=
  match r with
  | Ok a => k a
  | Raise e => Raise e
  end.

Notation "'let*' x ':=' r 'in' k" := (bind r (fun x => k))
  (at level 10, x name, r at level 100, k at level 200).

(** [d[k]] on a [dict] with string keys: [KeyError] when the key is absent. *)
Definition getitem {V : Type} (d : gmap string V) (k : string) : Result V :=
  match d !! k with
  | Some v => Ok v
  | None => Raise (KeyError k)
  end.

(** ** Insertion-ordered dictionaries

    [_DEFAULT_SPLITS.items()] and [custom_csv_splits.items()] are iterated,
    so the order of the entries is part of what the code does: these
    dictionaries are association lists in insertion order, without
    duplicate keys. *)
Module PyDict.

Definition t (V : Type) : Type := list (string * V).

Fixpoint get {V : Type} (k : string) (d : t V) : Result V :=
  match d with
  | [] => Raise (KeyError k)
  | (k', v) :: rest => if String.eqb k' k then Ok v else get k rest
  end.

(** [d[k] = v]: an existing key keeps its position, a new one goes last. *)
Fixpoint set {V : Type} (k : string) (v : V) (d : t V) : t V :=
  match d with
  | [] => [(k, v)]
  | (k', v') :: rest =>
      if String.eqb k' k then (k', v) :: rest else (k', v') :: set k v rest
  end.

(** [{**a, **b}] *)
Definition merge {V : Type} (a b : t V) : t V :=
  fold_left (fun d kv => set (fst kv) (snd kv) d) b a.

Definition keys {V : Type} (d : t V) : list string := map fst d.
Definition values {V : Type} (d : t V) : list V := map snd d.

End PyDict.

(** ** [os.path.join] (POSIX), two arguments

    An absolute second component discards the first; otherwise the two are
    joined with exactly one separator added unless the first is empty or
    already ends with one. *)
Definition starts_with_sep (s : string) : bool :=
  match s with
  | String c _ => Ascii.eqb c ("/" : Ascii.ascii)
  | EmptyString => false
  end.

Fixpoint ends_with_sep (s : string) : bool :=
  match s with
  | EmptyString => false
  | String c EmptyString => Ascii.eqb c ("/" : Ascii.ascii)
  | String _ rest => ends_with_sep rest
  end.

Definition os_path_join (a b : string) : string :=
  if starts_with_sep b then b
  else if (String.eqb a "" || ends_with_sep a)%bool then String.append a b
  else String.append a (String.append "/" b).

(** ** NumPy values and the array operations the builder calls *)
Module Numpy.

Local Open Scope R_scope.

(** A float as NumPy sees it: a finite value or one of the IEEE specials. *)
Inductive float : Type :=
| Fin (x : R)
| PInf
| NInf
| NaN.

(** A binary floating-point format under rounding to nearest: how a real
    is rounded when the exponent is not bounded above ([rnd]), the largest
    finite value, the relative rounding error and the absolute error left
    in the subnormal range.  Integers up to 2^24 are values of every such
    format of 24 bits of precision or more. *)
Record Format : Type := mkFormat {
  rnd : R -> R;
  largest : R;
  unit_roundoff : R;
  tiny : R;
  rnd_monotone : forall x y, x <= y -> rnd x <= rnd y;
  rnd_integer : forall n : Z, (Z.abs n <= 16777216)%Z -> rnd (IZR n) = IZR n;
  rnd_error : forall x, Rabs (rnd x - x) <= unit_roundoff * Rabs x + tiny;
  unit_roundoff_bounds : 0 <= unit_roundoff <= 1;
  tiny_bounds : 0 <= tiny <= 1;
  largest_bound : 16777216 <= largest
}.

(** The arithmetic NumPy computes with: the format the arrays of a matrix
    file are held in ([working]: binary64 for a MATLAB double matrix),
    the format of [np.float32] ([single]), and the C library's [hypot] and
    [log10] on finite arguments, before the range check.  The library
    functions are only ever applied to values of the working format; the
    laws say what holds of them there. *)
Record Arith : Type := mkArith {
  working : Format;
  single : Format;
  hypot : R -> R -> R;
  hypot_roundoff : R;
  flog10 : R -> R;
  hypot_nonneg : forall x y, 0 <= hypot x y;
  hypot_zero : forall x y, hypot x y = 0 <-> x = 0 /\ y = 0;
  hypot_error :
    forall x y,
      Rabs (hypot x y - sqrt (x * x + y * y))
      <= hypot_roundoff * sqrt (x * x + y * y) + tiny working;
  hypot_roundoff_bounds : 0 <= hypot_roundoff <= 1;
  flog10_one : flog10 1 = 0;
  flog10_below_one : forall y, 0 < y -> y <= 1 -> flog10 y <= 0
}.

(** A computed value beyond the largest finite value is an infinity. *)
Definition finite_or_inf (F : Format) (r : R) : float :=
  if Rlt_dec (largest F) r then PInf
  else if Rlt_dec r (- largest F) then NInf
  else Fin r.

(** The float an exact result becomes in a format. *)
Definition round (F : Format) (x : R) : float := finite_or_inf F (rnd F x).

(** A complex sample of the IQ array, as stored in the matrix file. *)
Record complex : Type := Complex { re : float; im : float }.

(** A sample with finite parts. *)
Definition finite (a b : R) : complex := Complex (Fin a) (Fin b).

(** A matrix as [loadmat] returns it: rows of samples. *)
Definition ndarray : Type := list (list complex).

(** [np.reshape(a, -1)]: row-major flattening. *)
Definition reshape_flat (a : ndarray) : list complex := concat a.

(** [np.abs] on one complex sample: the C library's [hypot] of its parts.
    An infinite part gives [inf], even beside a [nan]; otherwise a [nan]
    part gives [nan]; two finite parts give their modulus, [inf] when it
    exceeds the working format. *)
Definition abs (A : Arith) (z : complex) : float :=
  match re z, im z with
  | PInf, _ | NInf, _ | _, PInf | _, NInf => PInf
  | NaN, _ | _, NaN => NaN
  | Fin a, Fin b => finite_or_inf (working A) (hypot A a b)
  end.

(** Maximum of two floats the way [ndarray.max] combines them: [nan]
    wins over everything, then [inf], and [-inf] loses to everything. *)
Definition fmax (a b : float) : float :=
  match a, b with
  | NaN, _ | _, NaN => NaN
  | PInf, _ | _, PInf => PInf
  | NInf, y => y
  | x, NInf => x
  | Fin x, Fin y => Fin (Rmax x y)
  end.

(** [a.max()]: [ValueError] on an array without elements. *)
Definition amax (a : list float) : Result float :=
  match a with
  | [] => Raise ValueError
  | x :: rest => Ok (fold_left fmax rest x)
  end.

(** [x / y] (true division).  Dividing by zero raises nothing: NumPy
    warns and stores [nan] for [0/0] and an infinity otherwise. *)
Definition true_divide (A : Arith) (a b : float) : float :=
  match a, b with
  | NaN, _ | _, NaN => NaN
  | Fin x, Fin y =>
      if Req_EM_T y 0 then
        if Req_EM_T x 0 then NaN else if Rlt_dec 0 x then PInf else NInf
      else round (working A) (x / y)
  | Fin _, _ => Fin 0
  | _, PInf | _, NInf => NaN
  | PInf, Fin y => if Rle_dec 0 y then PInf else NInf
  | NInf, Fin y => if Rle_dec 0 y then NInf else PInf
  end.

(** [np.log10]: [-inf] at zero, [nan] below it. *)
Definition log10 (A : Arith) (a : float) : float :=
  match a with
  | Fin x =>
      if Rlt_dec 0 x then finite_or_inf (working A) (flog10 A x)
      else if Req_EM_T x 0 then NInf else NaN
  | PInf => PInf
  | NInf => NaN
  | NaN => NaN
  end.

(** [c * a] for a positive Python number [c]. *)
Definition scale (A : Arith) (c : R) (a : float) : float :=
  match a with
  | Fin x => round (working A) (c * x)
  | other => other
  end.

(** [astype(np.float32)] on one value: rounded to single precision,
    an infinity when it exceeds the single range. *)
Definition astype_single (A : Arith) (a : float) : float :=
  match a with
  | Fin x => round (single A) x
  | other => other
  end.

End Numpy.

(** ** The builder *)

(** [tfds.Split.TRAIN], [TEST] and [VALIDATION] are the framework's names
    for the standard splits; as dictionary keys they behave as the strings
    below. *)
Definition Split_TRAIN : string := "train".
Definition Split_TEST : string := "test".
Definition Split_VALIDATION : string := "validation".

Definition _DATA_URL : PyDict.t string :=
  [ ("phantom_data", "https://research.repository.duke.edu/downloads/vt150j912");
    ("mark_data", "https://research.repository.duke.edu/downloads/4x51hj56d") ].

Definition _DEFAULT_SPLITS : PyDict.t string :=
  [ (Split_TRAIN, "https://research.repository.duke.edu/downloads/tt44pn391");
    (Split_TEST, "https://research.repository.duke.edu/downloads/zg64tm441");
    (Split_VALIDATION, "https://research.repository.duke.edu/downloads/dj52w535x");
    ("MARK", "https://research.repository.duke.edu/downloads/wd375w77v");
    ("A", "https://research.repository.duke.edu/downloads/nc580n18d");
    ("B", "https://research.repository.duke.edu/downloads/7h149q56p") ].

(** The value passed as [datapath]: the default splits pass a dictionary
    of directory roots, the custom splits pass whatever [dl_paths['data']]
    holds, which is a single path string. *)
Inductive datapath_t : Type :=
| DataDirs (dirs : gmap string string)
| DataStr (path : string).

(** [datapath[k]]: subscripting a [str] with a [str] is a [TypeError]. *)
Definition datapath_getitem (dp : datapath_t) (k : string) : Result string :=
  match dp with
  | DataDirs dirs => getitem dirs k
  | DataStr _ => Raise TypeError
  end.

Record GenKwargs : Type := mkGenKwargs {
  datapath : datapath_t;
  csvpath : string
}.

Record SplitGenerator : Type := mkSplitGenerator {
  name : string;
  num_shards : nat;
  gen_kwargs : GenKwargs
}.

(** What the framework supplies to [_generate_examples]: the parsed rows
    of a manifest ([csv.DictReader] over the file; every row has a value
    for every column of the header) and the variables of a matrix file
    ([scipy.io.loadmat]).  A real-valued matrix is one whose samples have
    imaginary part zero. *)
Record World : Type := mkWorld {
  read_csv : string -> Result (list (gmap string string));
  loadmat : string -> Result (gmap string Numpy.ndarray)
}.

Record Das : Type := mkDas {
  dB : list Numpy.float;
  real : list Numpy.float;
  imag : list Numpy.float
}.

Record Example : Type := mkExample {
  das : Das;
  dtce : list Numpy.float;
  f0_hz : string;
  voltage : string;
  focus_cm : string;
  height : string;
  width : string;
  initial_radius : string;
  final_radius : string;
  initial_angle : string;
  final_angle : string;
  probe : string;
  scanner : string;
  target : string;
  timestamp_id : string;
  harmonic : string
}.

Section Builder.

(** The download manager: the local path each URL resolves to. *)
Variable resolve : string -> string.

(** [dl_manager.download_and_extract(d)] keeps the keys of [d]. *)
Definition download_and_extract (urls : PyDict.t string) : PyDict.t string :=
  map (fun kv => (fst kv, resolve (snd kv))) urls.

Definition default_split (dl_paths : PyDict.t string) (nm : string)
  : Result SplitGenerator :=
  let* mark := PyDict.get "mark_data" dl_paths in
  let* phantom := PyDict.get "phantom_data" dl_paths in
  let* csv := PyDict.get nm dl_paths in
  Ok (mkSplitGenerator nm 10
        (mkGenKwargs
           (DataDirs (<["mark_data" := mark]> (<["phantom_data" := phantom]> ∅)))
           csv)).

Fixpoint default_splits (dl_paths : PyDict.t string) (names : list string)
  : Result (list SplitGenerator) :=
  match names with
  | [] => Ok []
  | nm :: rest =>
      let* s := default_split dl_paths nm in
      let* ss := default_splits dl_paths rest in
      Ok (s :: ss)
  end.

Definition custom_split (dl_paths : PyDict.t string) (nm csv_path : string)
  : Result SplitGenerator :=
  let* data := PyDict.get "data" dl_paths in
  Ok (mkSplitGenerator nm 10 (mkGenKwargs (DataStr data) csv_path)).

(** The [for] loop appending one generator per custom split. *)
Fixpoint append_custom (dl_paths : PyDict.t string)
    (custom : PyDict.t string) (splits : list SplitGenerator)
  : Result (list SplitGenerator) :=
  match custom with
  | [] => Ok splits
  | (nm, csv_path) :: rest =>
      let* s := custom_split dl_paths nm csv_path in
      append_custom dl_paths rest (splits ++ [s])
  end.

Definition _split_generators (custom_csv_splits : PyDict.t string)
  : Result (list SplitGenerator) :=
  let dl_paths :=
    download_and_extract (PyDict.merge _DEFAULT_SPLITS _DATA_URL) in
  let* splits := default_splits dl_paths (PyDict.keys _DEFAULT_SPLITS) in
  append_custom dl_paths custom_csv_splits splits.

End Builder.

(** *** [_generate_examples] *)

(** [np.abs(np.reshape(matfile['iq'], -1))] *)
Definition magnitudes (A : Numpy.Arith) (iq : Numpy.ndarray)
  : list Numpy.float :=
  map (Numpy.abs A) (Numpy.reshape_flat iq).

(** [iq / iq.max()] *)
Definition normalize (A : Numpy.Arith) (iq : list Numpy.float)
  : Result (list Numpy.float) :=
  let* m := Numpy.amax iq in
  Ok (map (fun x => Numpy.true_divide A x m) iq).

(** [20 * np.log10(iq)] *)
Definition decibels (A : Numpy.Arith) (iq : list Numpy.float)
  : list Numpy.float :=
  map (fun x => Numpy.scale A 20 (Numpy.log10 A x)) iq.

(** [a.real] and [a.imag] on a flattened array.  Casting a complex array
    to a real type keeps the real parts, so [real_part] is also what
    [astype] does first on the [dtce] array. *)
Definition real_part (a : list Numpy.complex) : list Numpy.float :=
  map Numpy.re a.
Definition imag_part (a : list Numpy.complex) : list Numpy.float :=
  map Numpy.im a.

(** [a.astype(np.float32)] *)
Definition astype_float32 (A : Numpy.Arith) (a : list Numpy.float)
  : list Numpy.float :=
  map (Numpy.astype_single A) a.

Definition data_key_of (tgt : string) : string :=
  if String.eqb tgt "mark" then "mark_data" else "phantom_data".

(** Lines 131-133: the matrix file a row points to. *)
Definition row_filepath (dp : datapath_t) (row : gmap string string)
  : Result string :=
  let* tgt := getitem row "target" in
  let data_key := data_key_of tgt in
  let* dir := datapath_getitem dp data_key in
  let* filename := getitem row "filename" in
  Ok (os_path_join dir filename).

(** The body of the loop: one row in, one [(key, record)] pair out, or the
    exception that ends the generator.  [A] is the arithmetic NumPy
    computes with. *)
Definition generate_row (A : Numpy.Arith) (w : World) (dp : datapath_t)
    (row : gmap string string) : Result (string * Example) :=
  let* filepath := row_filepath dp row in
  let* matfile := loadmat w filepath in
  let* iq0 := getitem matfile "iq" in
  let iq := magnitudes A iq0 in
  let* iq := normalize A iq in
  let iq := decibels A iq in
  let* key := getitem row "filename" in
  let* iq_re := getitem matfile "iq" in
  let* iq_im := getitem matfile "iq" in
  let* ref := getitem matfile "dtce" in
  let* f0 := getitem row "f0" in
  let* v := getitem row "v" in
  let* focus := getitem row "focus_cm" in
  let* axial := getitem row "axial_samples" in
  let* lateral := getitem row "lateral_samples" in
  let* r0 := getitem row "initial_radius" in
  let* r1 := getitem row "final_radius" in
  let* a0 := getitem row "initial_angle" in
  let* a1 := getitem row "final_angle" in
  let* prb := getitem row "probe" in
  let* scn := getitem row "scanner" in
  let* tgt := getitem row "target" in
  let* ts := getitem row "timestamp_id" in
  let* harm := getitem row "harm" in
  Ok (key,
      mkExample
        (mkDas (astype_float32 A iq)
               (astype_float32 A
                  (real_part (Numpy.reshape_flat iq_re)))
               (astype_float32 A
                  (imag_part (Numpy.reshape_flat iq_im))))
        (astype_float32 A (real_part (Numpy.reshape_flat ref)))
        f0 v focus axial lateral r0 r1 a0 a1 prb scn tgt ts harm).

(** What a consumer that drains the generator observes: the pairs yielded
    in order, and the exception that stopped it, if any. *)
Definition Yielded : Type := (list (string * Example) * option PyError)%type.

Fixpoint generate_rows (A : Numpy.Arith) (w : World) (dp : datapath_t)
    (rows : list (gmap string string)) : Yielded :=
  match rows with
  | [] => ([], None)
  | row :: rest =>
      match generate_row A w dp row with
      | Raise e => ([], Some e)
      | Ok kv =>
          let out := generate_rows A w dp rest in
          (kv :: fst out, snd out)
      end
  end.

Definition _generate_examples (A : Numpy.Arith) (w : World)
    (dp : datapath_t) (csv : string) : Yielded :=
  match read_csv w csv with
  | Raise e => ([], Some e)
  | Ok rows => generate_rows A w dp rows
  end.
(** ** Vocabulary of the statements *)

(** The [i]-th row of the manifest at [csv] is [row], and the [i]-th pair
    the generator yields for that manifest is [kv]. *)
Definition emitted (A : Numpy.Arith) (w : World) (dp : datapath_t)
    (csv : string) (i : nat) (row : gmap string string)
    (kv : string * Example) : Prop :=
  exists rows : list (gmap string string),
    read_csv w csv = Ok rows /\
    rows !! i = Some row /\
    fst (_generate_examples A w dp csv) !! i = Some kv.

(** The matrix file a row points to. *)
Definition row_matfile (w : World) (dp : datapath_t)
    (row : gmap string string) : Result (gmap string Numpy.ndarray) :=
  let* filepath := row_filepath dp row in
  loadmat w filepath.

(** The columns of a manifest, as the generator reads them. *)
Definition manifest_columns : list string :=
  [ "filename"; "target"; "f0"; "v"; "focus_cm"; "axial_samples";
    "lateral_samples"; "initial_radius"; "final_radius"; "initial_angle";
    "final_angle"; "probe"; "scanner"; "timestamp_id"; "harm" ].

(** The filename column of a manifest, row by row. *)
Definition filenames (rows : list (gmap string string)) : list (option string) :=
  map (fun row : gmap string string => row !! "filename") rows.

(** A float that is at most zero: a finite non-positive value or [-inf]. *)
Definition at_most_zero (v : Numpy.float) : Prop :=
  match v with
  | Numpy.Fin y => (y <= 0)%R
  | Numpy.NInf => True
  | _ => False
  end.

(** A float that is at most [m]: a finite value not above it, or [-inf]. *)
Definition at_most (m : R) (v : Numpy.float) : Prop :=
  match v with
  | Numpy.Fin y => (y <= m)%R
  | Numpy.NInf => True
  | _ => False
  end.

(** A magnitude between zero and the maximum [mx]. *)
Definition within (mx : R) (v : Numpy.float) : Prop :=
  exists x, v = Numpy.Fin x /\ (0 <= x <= mx)%R.

(** How far the squares of two values can be apart when the values are
    at most [d] apart and one of them has magnitude [q]. *)
Definition squares_gap (d q : R) : R := (d * (2 * q + d))%R.

(** The rounding tolerance between [real^2 + imag^2] and the squared
    magnitude of a sample with parts [a] and [b]: the two parts carry the
    rounding error of the cast to single precision, the magnitude that of
    [hypot]. *)
Definition rounding_tolerance (A : Numpy.Arith) (a b : R) : R :=
  (squares_gap (Numpy.unit_roundoff (Numpy.single A) * Rabs a
                + Numpy.tiny (Numpy.single A)) (Rabs a)
   + squares_gap (Numpy.unit_roundoff (Numpy.single A) * Rabs b
                  + Numpy.tiny (Numpy.single A)) (Rabs b)
   + squares_gap (Numpy.hypot_roundoff A * sqrt (a * a + b * b)
                  + Numpy.tiny (Numpy.working A)) (sqrt (a * a + b * b)))%R.

(** ** Concrete inputs

    An arithmetic to evaluate the builder with: the ranges of binary64
    and binary32, and results that are exact.  It agrees with the IEEE
    arithmetic wherever every intermediate result is a value of the
    format, and it satisfies the laws of [Numpy.Arith]. *)
Definition double_largest : R := ((2 - / 2 ^ 52) * 2 ^ 1023)%R.
Definition single_largest : R := ((2 - / 2 ^ 23) * 2 ^ 127)%R.

Definition exact_format (big : R) (Hbig : (16777216 <= big)%R)
  : Numpy.Format.
Proof.
  refine (Numpy.mkFormat (fun x => x) big 0 0 _ _ _ _ _ Hbig).
  - intros x y H. exact H.
  - intros n _. reflexivity.
  - intros x. rewrite Rminus_diag, Rabs_R0. lra.
  - lra.
  - lra.
Defined.

Definition binary64_exact : Numpy.Format.
Proof.
  apply (exact_format double_largest). unfold double_largest.
  assert (H52 : (1 <= 2 ^ 52)%R) by (apply pow_R1_Rle; lra).
  assert (Hinv : (/ 2 ^ 52 <= 1)%R).
  { rewrite <- Rinv_1. apply Rinv_le_contravar; lra. }
  assert (H24 : (2 ^ 24 <= 2 ^ 1023)%R) by (apply Rle_pow; [lra | lia]).
  replace 16777216%R with (2 ^ 24)%R by (simpl; lra).
  assert (Hpos : (0 < 2 ^ 24)%R) by (apply pow_lt; lra).
  nra.
Defined.

Definition binary32_exact : Numpy.Format.
Proof.
  apply (exact_format single_largest). unfold single_largest.
  assert (H23 : (1 <= 2 ^ 23)%R) by (apply pow_R1_Rle; lra).
  assert (Hinv : (/ 2 ^ 23 <= 1)%R).
  { rewrite <- Rinv_1. apply Rinv_le_contravar; lra. }
  assert (H24 : (2 ^ 24 <= 2 ^ 127)%R) by (apply Rle_pow; [lra | lia]).
  replace 16777216%R with (2 ^ 24)%R by (simpl; lra).
  assert (Hpos : (0 < 2 ^ 24)%R) by (apply pow_lt; lra).
  nra.
Defined.

Definition exact_arith : Numpy.Arith.
Proof.
  refine (Numpy.mkArith binary64_exact binary32_exact
            (fun x y => sqrt (x * x + y * y)) 0
            (fun y => ln y / ln 10) _ _ _ _ _ _)%R.
  - intros x y. apply sqrt_pos.
  - intros x y. split.
    + intros H. apply sqrt_eq_0 in H; [|nra]. split; nra.
    + intros [-> ->]. replace (0 * 0 + 0 * 0)%R with 0%R by lra.
      apply sqrt_0.
  - intros x y. rewrite Rminus_diag, Rabs_R0. simpl.
    pose proof (sqrt_pos (x * x + y * y)). lra.
  - lra.
  - rewrite ln_1. unfold Rdiv. lra.
  - intros y Hpos Hle.
    assert (H10 : (0 < ln 10)%R) by (rewrite <- ln_1; apply ln_increasing; lra).
    assert (Hln : (ln y <= 0)%R).
    { destruct (Req_dec y 1) as [->|Hne]; [rewrite ln_1; lra|].
      left. rewrite <- ln_1. apply ln_increasing; lra. }
    apply Rmult_le_reg_r with (ln 10); [lra|]. field_simplify; lra.
Defined.

(** A world with one manifest and one matrix file, and the inputs of the
    end-to-end scenario: a reference acquisition [a.mat] with two samples. *)
Definition single_file_world (csv : string)
    (rows : list (gmap string string))
    (path : string) (mat : gmap string Numpy.ndarray) : World :=
  mkWorld
    (fun p => if String.eqb p csv then Ok rows else Raise (NotFoundError p))
    (fun p => if String.eqb p path then Ok mat else Raise (NotFoundError p)).

Definition scenario_row : gmap string string :=
  list_to_map
    [ ("filename", "a.mat"); ("target", "mark"); ("f0", "5000000");
      ("v", "30"); ("focus_cm", "4"); ("axial_samples", "1");
      ("lateral_samples", "2"); ("initial_radius", "0.01");
      ("final_radius", "0.12"); ("initial_angle", "-0.6");
      ("final_angle", "0.6"); ("probe", "c52v"); ("scanner", "verasonics");
      ("timestamp_id", "7"); ("harm", "False") ].

Definition scenario_iq : Numpy.ndarray :=
  [[ Numpy.finite 1 1; Numpy.finite 0 2 ]].

Definition scenario_dtce : Numpy.ndarray :=
  [[ Numpy.finite (1 / 10) 0; Numpy.finite (2 / 10) 0 ]].

Definition scenario_mat : gmap string Numpy.ndarray :=
  <["iq" := scenario_iq]> (<["dtce" := scenario_dtce]> ∅).

Definition scenario_dirs : gmap string string :=
  <["mark_data" := "/dl/mark"]> (<["phantom_data" := "/dl/phantom"]> ∅).

Definition scenario_world : World :=
  single_file_world "/dl/mark.csv" [scenario_row] "/dl/mark/a.mat" scenario_mat.

(** The same acquisition with every sample zero. *)
Definition silent_mat : gmap string Numpy.ndarray :=
  <["iq" := [[ Numpy.finite 0 0; Numpy.finite 0 0 ]]]>
    (<["dtce" := scenario_dtce]> ∅).

Definition silent_world : World :=
  single_file_world "/dl/mark.csv" [scenario_row] "/dl/mark/a.mat" silent_mat.

(** A second world around the same manifest and matrix file: other paths
    hold other things. *)
Definition crowded_world : World :=
  mkWorld
    (fun p => if String.eqb p "/dl/mark.csv" then Ok [scenario_row]
              else Ok [])
    (fun p => if String.eqb p "/dl/mark/a.mat" then Ok scenario_mat
              else Ok silent_mat).

(** ** [_info]: the declared schema

    The feature dictionary of [_info], with the shape and type every
    feature is declared with, and the two constants beside it.  The
    descriptive texts ([_DESCRIPTION], [_CITATION]) carry no behaviour and
    are left out. *)
Inductive dtype : Type := tf_float32 | tf_uint32 | tf_string | tf_bool.

#[local] Set Warnings "-register-all".

(** [Tensor(shape=(None,), ...)] has shape [[None]], [Tensor(shape=(), ...)]
    has shape [[]]. *)
Inductive feature : Type :=
| Tensor (shape : list (option nat)) (dt : dtype)
| FeaturesDict (fields : list (string * feature)).

Definition _URLS : list string :=
  [ "https://arxiv.org/abs/1908.05782"; "https://github.com/ouwen/mimicknet" ].

Record DatasetInfo : Type := mkDatasetInfo {
  features : feature;
  supervised_keys : string * string;
  urls : list string
}.

Definition _info : DatasetInfo :=
  mkDatasetInfo
    (FeaturesDict
       [ ("das", FeaturesDict
                   [ ("dB", Tensor [None] tf_float32);
                     ("real", Tensor [None] tf_float32);
                     ("imag", Tensor [None] tf_float32) ]);
         ("dtce", Tensor [None] tf_float32);
         ("f0_hz", Tensor [] tf_float32);
         ("voltage", Tensor [] tf_float32);
         ("focus_cm", Tensor [] tf_float32);
         ("height", Tensor [] tf_uint32);
         ("width", Tensor [] tf_uint32);
         ("initial_radius", Tensor [] tf_float32);
         ("final_radius", Tensor [] tf_float32);
         ("initial_angle", Tensor [] tf_float32);
         ("final_angle", Tensor [] tf_float32);
         ("probe", Tensor [] tf_string);
         ("scanner", Tensor [] tf_string);
         ("target", Tensor [] tf_string);
         ("timestamp_id", Tensor [] tf_uint32);
         ("harmonic", Tensor [] tf_bool) ])
    ("das/dB", "dtce")
    _URLS.

(** The record of lines 140-161 as the Python object it is: a dictionary
    whose values are arrays, strings taken from the row, or a nested
    dictionary.  ([PyBool] is the Python [bool], which the record could
    hold but never does.) *)
Inductive pyvalue : Type :=
| PyArray (a : list Numpy.float)
| PyStr (s : string)
| PyBool (b : bool)
| PyDictV (items : list (string * pyvalue)).

Definition example_dict (ex : Example) : pyvalue :=
  PyDictV
    [ ("das", PyDictV [ ("dB", PyArray (dB (das ex)));
                        ("real", PyArray (real (das ex)));
                        ("imag", PyArray (imag (das ex))) ]);
      ("dtce", PyArray (dtce ex));
      ("f0_hz", PyStr (f0_hz ex));
      ("voltage", PyStr (voltage ex));
      ("focus_cm", PyStr (focus_cm ex));
      ("height", PyStr (height ex));
      ("width", PyStr (width ex));
      ("initial_radius", PyStr (initial_radius ex));
      ("final_radius", PyStr (final_radius ex));
      ("initial_angle", PyStr (initial_angle ex));
      ("final_angle", PyStr (final_angle ex));
      ("probe", PyStr (probe ex));
      ("scanner", PyStr (scanner ex));
      ("target", PyStr (target ex));
      ("timestamp_id", PyStr (timestamp_id ex));
      ("harmonic", PyStr (harmonic ex)) ].

(** A value is laid out as a feature asks: a dictionary with the same
    keys, each laid out as its feature asks; a one-dimensional array
    where the shape is [(None,)]; a single value where the shape is [()]. *)
Fixpoint same_layout (v : pyvalue) (f : feature) : bool :=
  match v, f with
  | PyDictV items, FeaturesDict fields =>
      (fix go (items : list (string * pyvalue))
              (fields : list (string * feature)) : bool :=
         match items, fields with
         | [], [] => true
         | (k, v') :: items', (k', f') :: fields' =>
             (String.eqb k k' && same_layout v' f' && go items' fields')%bool
         | _, _ => false
         end) items fields
  | PyArray _, Tensor [None] _ => true
  | PyStr _, Tensor [] _ => true
  | _, _ => false
  end.

(** [d[k]] on a dictionary value. *)
Definition pyvalue_item (v : pyvalue) (k : string) : option pyvalue :=
  match v with
  | PyDictV items =>
      (fix find (items : list (string * pyvalue)) : option pyvalue :=
         match items with
         | [] => None
         | (k', v') :: rest => if String.eqb k' k then Some v' else find rest
         end) items
  | _ => None
  end.

(** Python's [bool(v)] on a string or a [bool]: a string is true unless
    it is empty. *)
Definition truth_value (v : pyvalue) : option bool :=
  match v with
  | PyStr s => Some (negb (String.eqb s ""))
  | PyBool b => Some b
  | _ => None
  end.

(** ** More vocabulary *)

(** The columns copied into the record, in the order the record lists
    them (lines 147-160). *)
Definition metadata_columns : list string :=
  [ "f0"; "v"; "focus_cm"; "axial_samples"; "lateral_samples";
    "initial_radius"; "final_radius"; "initial_angle"; "final_angle";
    "probe"; "scanner"; "target"; "timestamp_id"; "harm" ].

(** The loop body raises nothing on this row. *)
Definition row_succeeds (A : Numpy.Arith) (w : World) (dp : datapath_t)
    (row : gmap string string) : Prop :=
  exists kv, generate_row A w dp row = Ok kv.

(** Two matrix files that hold the same [iq] and [dtce], or two failed
    reads that failed the same way. *)
Definition same_arrays (a b : Result (gmap string Numpy.ndarray)) : Prop :=
  match a, b with
  | Ok m1, Ok m2 => m1 !! "iq" = m2 !! "iq" /\ m1 !! "dtce" = m2 !! "dtce"
  | Raise e1, Raise e2 => e1 = e2
  | _, _ => False
  end.

(** ** More concrete inputs *)

(** A download manager that caches every URL under [/cache/]. *)
Definition cache_resolve (url : string) : string := String.append "/cache/" url.

(** A row without any column. *)
Definition blank_row : gmap string string := ∅.

(** The scenario's manifest with a blank row in the middle. *)
Definition broken_world : World :=
  single_file_world "/dl/mark.csv" [scenario_row; blank_row; scenario_row]
    "/dl/mark/a.mat" scenario_mat.

(** The scenario's matrix file with an [iq] array of no samples. *)
Definition empty_mat : gmap string Numpy.ndarray :=
  <["iq" := [[]]]> (<["dtce" := scenario_dtce]> ∅).

Definition empty_world : World :=
  single_file_world "/dl/mark.csv" [scenario_row] "/dl/mark/a.mat" empty_mat.

(** The scenario's matrix file without a [dtce] array. *)
Definition bare_mat : gmap string Numpy.ndarray :=
  <["iq" := scenario_iq]> ∅.

Definition bare_world : World :=
  single_file_world "/dl/mark.csv" [scenario_row] "/dl/mark/a.mat" bare_mat.

(** The scenario's row without its [probe] column. *)
Definition probeless_row : gmap string string := delete "probe" scenario_row.

(** The scenario with a column and a matrix variable the builder does not
    know. *)
Definition annotated_row : gmap string string :=
  <["comment" := "first acquisition"]> scenario_row.

Definition annotated_mat : gmap string Numpy.ndarray :=
  <["__header__" := []]> scenario_mat.

Definition annotated_world : World :=
  single_file_world "/dl/mark.csv" [annotated_row] "/dl/mark/a.mat"
    annotated_mat.

(** The scenario's IQ array with a silent second sample. *)
Definition gapped_mat : gmap string Numpy.ndarray :=
  <["iq" := [[ Numpy.finite 3 4; Numpy.finite 0 0 ]]]>
    (<["dtce" := scenario_dtce]> ∅).

Definition gapped_world : World :=
  single_file_world "/dl/mark.csv" [scenario_row] "/dl/mark/a.mat" gapped_mat.

(** The scenario's matrix file with a reference array of one sample. *)
Definition short_ref_mat : gmap string Numpy.ndarray :=
  <["iq" := scenario_iq]> (<["dtce" := [[ Numpy.finite (1 / 2) 0 ]]]> ∅).

Definition short_ref_world : World :=
  single_file_world "/dl/mark.csv" [scenario_row] "/dl/mark/a.mat"
    short_ref_mat.

(** The scenario's row pointing at an absolute path. *)
Definition absolute_row : gmap string string :=
  <["filename" := "/tmp/a.mat"]> scenario_row.

(** The scenario's acquisition with every phase mirrored. *)
Definition mirrored_mat : gmap string Numpy.ndarray :=
  <["iq" := [[ Numpy.finite 1 (-1); Numpy.finite 0 (-2) ]]]>
    (<["dtce" := scenario_dtce]> ∅).

Definition mirrored_world : World :=
  single_file_world "/dl/mark.csv" [scenario_row] "/dl/mark/a.mat"
    mirrored_mat.

(** A download manager that agrees with [cache_resolve] on the URLs of
    the Duke repository and sends every other URL elsewhere. *)
Definition picky_resolve (url : string) : string :=
  if String.prefix "https://research.repository.duke.edu/" url
  then cache_resolve url
  else "/nowhere".

(** An acquisition whose first sample has parts of 3 * 2^1022, finite in
    binary64, and a modulus beyond the largest binary64 value. *)
Definition huge : R := (3 * 2 ^ 1022)%R.

Definition overflowing_iq : Numpy.ndarray :=
  [[ Numpy.finite huge huge; Numpy.finite 1 0 ]].

Definition overflowing_mat : gmap string Numpy.ndarray :=
  <["iq" := overflowing_iq]> (<["dtce" := scenario_dtce]> ∅).

Definition overflowing_world : World :=
  single_file_world "/dl/mark.csv" [scenario_row] "/dl/mark/a.mat"
    overflowing_mat.

(** An acquisition whose first sample is 2^130: finite in binary64, beyond
    the binary32 range. *)
Definition beyond_single : R := (2 ^ 130)%R.

Definition wide_iq : Numpy.ndarray :=
  [[ Numpy.finite beyond_single 0; Numpy.finite 1 0 ]].

Definition wide_mat : gmap string Numpy.ndarray :=
  <["iq" := wide_iq]> (<["dtce" := scenario_dtce]> ∅).

Definition wide_world : World :=
  single_file_world "/dl/mark.csv" [scenario_row] "/dl/mark/a.mat" wide_mat.

(** A manifest of two rows, a reference acquisition and a phantom one,
    each with its matrix file. *)
Definition phantom_row : gmap string string :=
  <["filename" := "b.mat"]> (<["target" := "phantom"]> scenario_row).

Definition two_file_world : World :=
  mkWorld
    (fun p => if String.eqb p "/dl/both.csv"
              then Ok [scenario_row; phantom_row]
              else Raise (NotFoundError p))
    (fun p => if String.eqb p "/dl/mark/a.mat" then Ok scenario_mat
              else if String.eqb p "/dl/phantom/b.mat" then Ok gapped_mat
              else Raise (NotFoundError p)).

(** * Properties *)

(** ** The fixed inputs and the split resolver *)

Lemma download_request_keys :
  PyDict.keys (PyDict.merge _DEFAULT_SPLITS _DATA_URL)
  = ["train"; "test"; "validation"; "MARK"; "A"; "B";
     "phantom_data"; "mark_data"].
Proof. reflexivity. Qed.

(** Without custom splits the resolver answers with the six default
    splits, in the order of [_DEFAULT_SPLITS], each carrying both data
    roots. *)
Lemma default_split_generators (resolve : string -> string) :
  exists splits,
    _split_generators resolve [] = Ok splits /\
    map name splits = PyDict.keys _DEFAULT_SPLITS /\
    Forall (fun s =>
      datapath (gen_kwargs s)
      = DataDirs (<["mark_data" := resolve "https://research.repository.duke.edu/downloads/4x51hj56d"]>
                 (<["phantom_data" := resolve "https://research.repository.duke.edu/downloads/vt150j912"]> ∅)))
      splits.
Proof.
  eexists. split; [reflexivity|]. split; [reflexivity|].
  repeat constructor.
Qed.

(** C2 (as stated, refuted): the manifests are not five. *)
Lemma manifests_are_not_five :
  ~ (length _DATA_URL = 2 /\ length _DEFAULT_SPLITS = 5).
Proof. intros [_ H]. discriminate H. Qed.

(** C2 (amended): the fixed external inputs are exactly two data archives,
    [phantom_data] and [mark_data], and exactly six CSV manifests (train,
    test, validation, MARK, A, B); the eight are requested together and
    each has a fixed URL of its own. *)
Theorem fixed_inputs_two_archives_six_manifests :
  PyDict.keys _DATA_URL = ["phantom_data"; "mark_data"] /\
  PyDict.keys _DEFAULT_SPLITS = ["train"; "test"; "validation"; "MARK"; "A"; "B"] /\
  length _DEFAULT_SPLITS = 6 /\
  length (PyDict.merge _DEFAULT_SPLITS _DATA_URL) = 8 /\
  NoDup (PyDict.values (PyDict.merge _DEFAULT_SPLITS _DATA_URL)).
Proof.
  repeat split.
  apply (bool_decide_unpack _). vm_compute. reflexivity.
Qed.

(** C1 (the code departs from the claim): as soon as one custom split is
    supplied, [_split_generators] looks up the key ['data'], which the
    download manager's answer never has, and raises [KeyError] instead of
    returning any split generator. *)
Theorem custom_split_raises_KeyError
    (resolve : string -> string) (nm csv_path : string)
    (rest : PyDict.t string) :
  _split_generators resolve ((nm, csv_path) :: rest) = Raise (KeyError "data").
Proof. reflexivity. Qed.

Example os_path_join_plain : os_path_join "/dl/mark" "a.mat" = "/dl/mark/a.mat".
Proof. reflexivity. Qed.

Example os_path_join_trailing_sep :
  os_path_join "/dl/mark/" "a.mat" = "/dl/mark/a.mat".
Proof. reflexivity. Qed.

Example os_path_join_absolute : os_path_join "/dl/mark" "/tmp/a.mat" = "/tmp/a.mat".
Proof. reflexivity. Qed.

(** The comparison with ['mark'] is exact: any other spelling selects the
    phantom data. *)
Example data_key_of_values :
  data_key_of "mark" = "mark_data" /\
  data_key_of "Mark" = "phantom_data" /\
  data_key_of "phantom" = "phantom_data" /\
  data_key_of "" = "phantom_data".
Proof. repeat split. Qed.

(** ** Reading the generator backwards *)

Lemma getitem_Ok {V : Type} (d : gmap string V) (k : string) (v : V) :
  getitem d k = Ok v <-> d !! k = Some v.
Proof.
  unfold getitem. destruct (d !! k); split; intros H; congruence.
Qed.

Lemma bind_Ok {A B : Type} (r : Result A) (k : A -> Result B) (b : B) :
  bind r k = Ok b -> exists a, r = Ok a /\ k a = Ok b.
Proof.
  destruct r as [a|e]; simpl; intros H; [eauto | discriminate].
Qed.

(** Peel the outermost [let*] of an equation [... = Ok _]. *)
Ltac peel H x Hx :=
  apply bind_Ok in H; destruct H as (x & Hx & H).

(** A row that produces a pair found everything it looked up, and the
    pair holds what was found. *)
Lemma generate_row_Ok (A : Numpy.Arith) (w : World) (dp : datapath_t)
    (row : gmap string string) (key : string) (ex : Example) :
  generate_row A w dp row = Ok (key, ex) ->
  exists path mat iq0 ref m,
    row_filepath dp row = Ok path /\
    loadmat w path = Ok mat /\
    mat !! "iq" = Some iq0 /\
    mat !! "dtce" = Some ref /\
    Numpy.amax (magnitudes A iq0) = Ok m /\
    row !! "filename" = Some key /\
    dB (das ex)
    = astype_float32 A
        (decibels A
           (map (fun x => Numpy.true_divide A x m)
                (magnitudes A iq0))) /\
    real (das ex)
    = astype_float32 A (real_part (Numpy.reshape_flat iq0)) /\
    imag (das ex)
    = astype_float32 A (imag_part (Numpy.reshape_flat iq0)) /\
    dtce ex
    = astype_float32 A (real_part (Numpy.reshape_flat ref)) /\
    row !! "harm" = Some (harmonic ex).
Proof.
  unfold generate_row. intros H.
  peel H path Hpath. peel H mat Hmat. peel H iq0 Hiq.
  peel H nrm Hnrm. peel H key' Hkey.
  rewrite Hiq in H. simpl in H.
  peel H ref Href. peel H f0 Hf0. peel H v Hv. peel H fc Hfc.
  peel H ax Hax. peel H lat Hlat. peel H r0 Hr0. peel H r1 Hr1.
  peel H a0 Ha0. peel H a1 Ha1. peel H prb Hprb. peel H scn Hscn.
  peel H tgt Htgt. peel H ts Hts. peel H harm Hharm.
  injection H as <- <-.
  unfold normalize in Hnrm. peel Hnrm m Hm. injection Hnrm as <-.
  exists path, mat, iq0, ref, m. simpl.
  apply getitem_Ok in Hiq. apply getitem_Ok in Href.
  apply getitem_Ok in Hkey. apply getitem_Ok in Hharm.
  repeat split; assumption.
Qed.

(** Every scalar field of the record is the row's value, verbatim. *)
Lemma generate_row_metadata (A : Numpy.Arith) (w : World) (dp : datapath_t)
    (row : gmap string string) (key : string) (ex : Example) :
  generate_row A w dp row = Ok (key, ex) ->
  row !! "f0" = Some (f0_hz ex) /\
  row !! "v" = Some (voltage ex) /\
  row !! "focus_cm" = Some (focus_cm ex) /\
  row !! "axial_samples" = Some (height ex) /\
  row !! "lateral_samples" = Some (width ex) /\
  row !! "initial_radius" = Some (initial_radius ex) /\
  row !! "final_radius" = Some (final_radius ex) /\
  row !! "initial_angle" = Some (initial_angle ex) /\
  row !! "final_angle" = Some (final_angle ex) /\
  row !! "probe" = Some (probe ex) /\
  row !! "scanner" = Some (scanner ex) /\
  row !! "target" = Some (target ex) /\
  row !! "timestamp_id" = Some (timestamp_id ex) /\
  row !! "harm" = Some (harmonic ex).
Proof.
  unfold generate_row. intros H.
  peel H path Hpath. peel H mat Hmat. peel H iq0 Hiq.
  peel H nrm Hnrm. peel H key' Hkey.
  rewrite Hiq in H. cbn [bind] in H.
  peel H ref Href. peel H f0 Hf0. peel H v Hv. peel H fc Hfc.
  peel H ax Hax. peel H lat Hlat. peel H r0 Hr0. peel H r1 Hr1.
  peel H a0 Ha0. peel H a1 Ha1. peel H prb Hprb. peel H scn Hscn.
  peel H tgt Htgt. peel H ts Hts. peel H harm Hharm.
  injection H as <- <-. cbn.
  repeat split; apply getitem_Ok; assumption.
Qed.

(** The [i]-th pair yielded comes from the [i]-th row. *)
Lemma generate_rows_lookup (A : Numpy.Arith) (w : World) (dp : datapath_t)
    (rows : list (gmap string string)) (i : nat) (kv : string * Example) :
  fst (generate_rows A w dp rows) !! i = Some kv ->
  exists row, rows !! i = Some row /\ generate_row A w dp row = Ok kv.
Proof.
  revert i. induction rows as [|row rest IH]; intros i; simpl.
  - intros H. discriminate H.
  - destruct (generate_row A w dp row) as [kv0|e] eqn:Hrow; simpl.
    + destruct i as [|i]; simpl.
      * intros [= <-]. exists row. split; [reflexivity | assumption].
      * intros H. apply IH in H. exact H.
    + intros H. discriminate H.
Qed.

Lemma emitted_generate_row
    (A : Numpy.Arith) (w : World) (dp : datapath_t) (csv : string)
    (i : nat) (row : gmap string string) (kv : string * Example) :
  emitted A w dp csv i row kv -> generate_row A w dp row = Ok kv.
Proof.
  intros (rows & Hcsv & Hrow & Hout).
  unfold _generate_examples in Hout. rewrite Hcsv in Hout.
  apply generate_rows_lookup in Hout. destruct Hout as (row' & Hrow' & Hgen).
  congruence.
Qed.

(** ** Facts about the array operations *)

Section NumpyFacts.

Import Numpy.
Local Open Scope R_scope.

Lemma Rabs_bounds (x d : R) : Rabs x <= d <-> - d <= x <= d.
Proof. unfold Rabs. destruct (Rcase_abs x); lra. Qed.

(** *** Rounding and the range check *)

Lemma rnd_zero (F : Format) : rnd F 0 = 0.
Proof. apply (rnd_integer F 0). simpl. lia. Qed.

Lemma rnd_one (F : Format) : rnd F 1 = 1.
Proof. apply (rnd_integer F 1). simpl. lia. Qed.

Lemma largest_positive (F : Format) : 0 < largest F.
Proof. pose proof (largest_bound F). lra. Qed.

Lemma finite_or_inf_in_range (F : Format) (r : R) :
  - largest F <= r <= largest F -> finite_or_inf F r = Fin r.
Proof.
  intros [Hlo Hhi]. unfold finite_or_inf.
  destruct (Rlt_dec (largest F) r); [lra|].
  destruct (Rlt_dec r (- largest F)); [lra | reflexivity].
Qed.

Lemma finite_or_inf_Fin (F : Format) (r d : R) :
  finite_or_inf F r = Fin d -> d = r /\ - largest F <= r <= largest F.
Proof.
  unfold finite_or_inf.
  destruct (Rlt_dec (largest F) r); [discriminate|].
  destruct (Rlt_dec r (- largest F)); [discriminate|].
  intros [= <-]. lra.
Qed.

Lemma finite_or_inf_nonpos (F : Format) (r : R) :
  r <= 0 -> at_most_zero (finite_or_inf F r).
Proof.
  intros Hr. pose proof (largest_positive F). unfold finite_or_inf.
  destruct (Rlt_dec (largest F) r); [lra|].
  destruct (Rlt_dec r (- largest F)); simpl; [exact I | exact Hr].
Qed.

Lemma round_integer (F : Format) (n : Z) :
  (Z.abs n <= 16777216)%Z -> round F (IZR n) = Fin (IZR n).
Proof.
  intros Hn. unfold round. rewrite (rnd_integer F n Hn).
  apply finite_or_inf_in_range. pose proof (largest_bound F).
  assert (Hlo : IZR (-16777216) <= IZR n) by (apply IZR_le; lia).
  assert (Hhi : IZR n <= IZR 16777216) by (apply IZR_le; lia).
  lra.
Qed.

Lemma round_zero (F : Format) : round F 0 = Fin 0.
Proof. apply (round_integer F 0). simpl. lia. Qed.

Lemma round_one (F : Format) : round F 1 = Fin 1.
Proof. apply (round_integer F 1). simpl. lia. Qed.

Lemma round_nonpos (F : Format) (x : R) :
  x <= 0 -> at_most_zero (round F x).
Proof.
  intros Hx. apply finite_or_inf_nonpos.
  rewrite <- (rnd_zero F). apply rnd_monotone. exact Hx.
Qed.

Lemma round_unit_interval (F : Format) (x : R) :
  0 <= x <= 1 -> exists q, round F x = Fin q /\ 0 <= q <= 1.
Proof.
  intros [Hlo Hhi]. exists (rnd F x).
  assert (H0 : 0 <= rnd F x).
  { rewrite <- (rnd_zero F). apply rnd_monotone. exact Hlo. }
  assert (H1 : rnd F x <= 1).
  { rewrite <- (rnd_one F). apply rnd_monotone. exact Hhi. }
  split; [|lra]. apply finite_or_inf_in_range.
  pose proof (largest_bound F). lra.
Qed.

Lemma round_Fin (F : Format) (x d : R) :
  round F x = Fin d -> Rabs (d - x) <= unit_roundoff F * Rabs x + tiny F.
Proof.
  intros H. apply finite_or_inf_Fin in H. destruct H as [-> _].
  apply rnd_error.
Qed.

Lemma at_most_zero_cases (v : float) :
  at_most_zero v -> v = NInf \/ exists y, v = Fin y /\ y <= 0.
Proof.
  destruct v as [y| | |]; simpl; intros H; try contradiction.
  - right. exists y. auto.
  - left. reflexivity.
Qed.

(** *** [np.abs] *)

Lemma abs_Fin (A : Arith) (z : complex) (x : R) :
  abs A z = Fin x ->
  exists a b, z = finite a b /\ x = hypot A a b /\ 0 <= x.
Proof.
  destruct z as [[a| | |] [b| | |]]; unfold abs; simpl; try discriminate.
  intros H. apply finite_or_inf_Fin in H. destruct H as [-> _].
  exists a, b. split; [reflexivity|]. split; [reflexivity|].
  apply hypot_nonneg.
Qed.

Lemma abs_not_NInf (A : Arith) (z : complex) : abs A z <> NInf.
Proof.
  destruct z as [[a| | |] [b| | |]]; unfold abs; simpl; try discriminate.
  unfold finite_or_inf. pose proof (hypot_nonneg A a b).
  pose proof (largest_positive (working A)).
  destruct (Rlt_dec (largest (working A)) (hypot A a b)); [discriminate|].
  destruct (Rlt_dec (hypot A a b) (- largest (working A)));
    [lra | discriminate].
Qed.

Lemma abs_zero (A : Arith) : abs A (finite 0 0) = Fin 0.
Proof.
  unfold abs; simpl.
  assert (H : hypot A 0 0 = 0) by (apply hypot_zero; auto).
  rewrite H. apply finite_or_inf_in_range.
  pose proof (largest_positive (working A)). lra.
Qed.

Lemma abs_Fin_zero (A : Arith) (z : complex) :
  abs A z = Fin 0 -> z = finite 0 0.
Proof.
  intros H. apply abs_Fin in H. destruct H as (a & b & -> & Hh & _).
  symmetry in Hh. apply hypot_zero in Hh. destruct Hh as [-> ->].
  reflexivity.
Qed.

(** The magnitude of a sample whose parts are far from the limits of the
    working format is finite. *)
Lemma abs_finite (A : Arith) (a b : R) :
  sqrt (a * a + b * b) <= 4194304 ->
  abs A (finite a b) = Fin (hypot A a b).
Proof.
  intros Hs. unfold abs; simpl. apply finite_or_inf_in_range.
  pose proof (hypot_nonneg A a b) as H0.
  pose proof (hypot_error A a b) as He.
  pose proof (hypot_roundoff_bounds A) as [Hu0 Hu1].
  pose proof (tiny_bounds (working A)) as [Ht0 Ht1].
  pose proof (largest_bound (working A)) as Hl.
  pose proof (sqrt_pos (a * a + b * b)) as Hs0.
  apply Rabs_bounds in He.
  assert (hypot_roundoff A * sqrt (a * a + b * b)
          <= sqrt (a * a + b * b)) by nra.
  lra.
Qed.

(** *** Maxima *)

Lemma fmax_at_most (m : R) (a b : float) :
  at_most m (fmax a b) <-> at_most m a /\ at_most m b.
Proof.
  destruct a as [x| | |], b as [y| | |]; simpl; try tauto.
  split.
  - intros H. pose proof (Rmax_l x y). pose proof (Rmax_r x y). lra.
  - intros [Hx Hy]. apply Rmax_lub; assumption.
Qed.

Lemma fmax_Fin (a b : float) (m : R) :
  fmax a b = Fin m -> a = Fin m \/ b = Fin m.
Proof.
  destruct a as [x| | |], b as [y| | |]; simpl; try discriminate; auto.
  intros [= <-]. unfold Rmax. destruct (Rle_dec x y); auto.
Qed.

Lemma fold_fmax_Fin (l : list float) (acc : float) (m : R) :
  fold_left fmax l acc = Fin m ->
  at_most m acc /\ Forall (at_most m) l /\ (acc = Fin m \/ In (Fin m) l).
Proof.
  revert acc. induction l as [|v l IH]; intros acc H; simpl in H.
  - subst acc. simpl. split; [lra|]. split; [constructor | auto].
  - apply IH in H. destruct H as (Hacc & Hl & Hin).
    apply fmax_at_most in Hacc. destruct Hacc as [Ha Hv].
    split; [exact Ha|]. split; [constructor; assumption|].
    destruct Hin as [Hin|Hin].
    + apply fmax_Fin in Hin. destruct Hin as [->| ->]; [auto|].
      right; left; reflexivity.
    + right; right; exact Hin.
Qed.

(** A finite maximum bounds every entry, none of which is [nan] or
    [inf], and is one of them. *)
Lemma amax_Fin (l : list float) (m : R) :
  amax l = Ok (Fin m) -> Forall (at_most m) l /\ In (Fin m) l.
Proof.
  destruct l as [|x l]; simpl; [discriminate|]. intros [= H].
  apply fold_fmax_Fin in H. destruct H as (Hx & Hl & Hin).
  split; [constructor; assumption|].
  destruct Hin as [->|Hin]; [left; reflexivity | right; exact Hin].
Qed.

Lemma amax_nonempty (l : list float) :
  l <> [] -> exists m, amax l = Ok m.
Proof. destruct l as [|x l]; [congruence|]. intros _. simpl. eauto. Qed.

Lemma fmax_at_most_zero (a b : float) :
  at_most_zero a -> at_most_zero b -> at_most_zero (fmax a b).
Proof. intros Ha Hb. apply (fmax_at_most 0). split; assumption. Qed.

Lemma fmax_zero_l (b : float) : at_most_zero b -> fmax (Fin 0) b = Fin 0.
Proof.
  destruct b as [y| | |]; simpl; try tauto.
  intros Hy. f_equal. apply Rmax_left. exact Hy.
Qed.

Lemma fmax_zero_r (a : float) : at_most_zero a -> fmax a (Fin 0) = Fin 0.
Proof.
  destruct a as [x| | |]; simpl; try tauto.
  intros Hx. f_equal. apply Rmax_right. exact Hx.
Qed.

Lemma fold_fmax_zero (l : list float) (acc : float) :
  at_most_zero acc -> Forall at_most_zero l ->
  acc = Fin 0 \/ In (Fin 0) l ->
  fold_left fmax l acc = Fin 0.
Proof.
  revert acc. induction l as [|v l IH]; intros acc Hacc Hl Hz; simpl.
  - destruct Hz as [Hz|[]]. exact Hz.
  - apply Forall_cons in Hl. destruct Hl as [Hv Hl].
    apply IH; [apply fmax_at_most_zero; assumption | exact Hl |].
    destruct Hz as [->|[->|Hin]].
    + left. apply fmax_zero_l. exact Hv.
    + left. apply fmax_zero_r. exact Hacc.
    + right. exact Hin.
Qed.

(** An array whose entries are all at most zero and that holds a zero
    has maximum zero. *)
Lemma amax_zero (l : list float) :
  Forall at_most_zero l -> In (Fin 0) l -> amax l = Ok (Fin 0).
Proof.
  destruct l as [|v l]; intros Hall Hin; [destruct Hin|]. simpl. f_equal.
  apply Forall_cons in Hall. destruct Hall as [Hv Hl].
  apply fold_fmax_zero; [exact Hv | exact Hl |].
  destruct Hin as [->|Hin]; [left; reflexivity | right; exact Hin].
Qed.

(** *** One entry of the dB array *)

Lemma true_divide_below (A : Arith) (x m : R) :
  0 <= x -> x <= m -> 0 < m ->
  exists q, true_divide A (Fin x) (Fin m) = Fin q /\ 0 <= q <= 1.
Proof.
  intros Hx Hxm Hm. simpl.
  destruct (Req_EM_T m 0) as [Hm0|_]; [lra|].
  apply round_unit_interval. split.
  - apply Rmult_le_pos; [lra|]. left. apply Rinv_0_lt_compat. lra.
  - apply Rmult_le_reg_r with m; [lra|]. field_simplify; lra.
Qed.

Lemma log10_unit_interval (A : Arith) (q : R) :
  0 <= q <= 1 -> at_most_zero (log10 A (Fin q)).
Proof.
  intros [Hlo Hhi]. simpl. destruct (Rlt_dec 0 q) as [Hpos|Hnpos].
  - apply finite_or_inf_nonpos. apply flog10_below_one; assumption.
  - destruct (Req_EM_T q 0); simpl; [exact I | lra].
Qed.

Lemma scale_at_most_zero (A : Arith) (c : R) (v : float) :
  0 <= c -> at_most_zero v -> at_most_zero (scale A c v).
Proof.
  intros Hc Hv. apply at_most_zero_cases in Hv.
  destruct Hv as [->|(y & -> & Hy)]; simpl; [exact I|].
  apply round_nonpos. nra.
Qed.

Lemma astype_at_most_zero (A : Arith) (v : float) :
  at_most_zero v -> at_most_zero (astype_single A v).
Proof.
  intros Hv. apply at_most_zero_cases in Hv.
  destruct Hv as [->|(y & -> & Hy)]; simpl; [exact I|].
  apply round_nonpos. exact Hy.
Qed.

(** A magnitude [x] below the maximum [m] gives a dB value at most zero. *)
Lemma decibel_at_most_zero (A : Arith) (x m : R) :
  0 <= x -> x <= m -> 0 < m ->
  at_most_zero
    (astype_single A
       (scale A 20 (log10 A (true_divide A (Fin x) (Fin m))))).
Proof.
  intros Hx Hxm Hm.
  destruct (true_divide_below A x m Hx Hxm Hm) as (q & -> & Hq).
  apply astype_at_most_zero, scale_at_most_zero; [lra|].
  apply log10_unit_interval. exact Hq.
Qed.

(** The maximum itself gives exactly zero. *)
Lemma decibel_of_maximum (A : Arith) (m : R) :
  0 < m ->
  astype_single A (scale A 20 (log10 A (true_divide A (Fin m) (Fin m))))
  = Fin 0.
Proof.
  intros Hm. simpl. destruct (Req_EM_T m 0) as [Hm0|_]; [lra|].
  replace (m / m) with 1 by (field; lra). rewrite round_one. simpl.
  destruct (Rlt_dec 0 1) as [_|H]; [|lra].
  rewrite flog10_one.
  rewrite finite_or_inf_in_range
    by (pose proof (largest_positive (working A)); lra).
  simpl. replace (20 * 0) with 0 by lra. rewrite round_zero. simpl.
  apply round_zero.
Qed.

(** A zero magnitude gives [-inf]. *)
Lemma decibel_of_zero (A : Arith) (m : R) :
  0 < m ->
  astype_single A (scale A 20 (log10 A (true_divide A (Fin 0) (Fin m))))
  = NInf.
Proof.
  intros Hm. simpl. destruct (Req_EM_T m 0) as [Hm0|_]; [lra|].
  replace (0 / m) with 0 by (unfold Rdiv; lra). rewrite round_zero. simpl.
  destruct (Rlt_dec 0 0) as [H|_]; [lra|].
  destruct (Req_EM_T 0 0) as [_|H]; [reflexivity | contradiction].
Qed.

End NumpyFacts.
(** ** Running the generator forwards *)

Lemma row_filepath_run (dirs : gmap string string)
    (row : gmap string string) (tgt filename dir : string) :
  row !! "target" = Some tgt ->
  row !! "filename" = Some filename ->
  dirs !! data_key_of tgt = Some dir ->
  row_filepath (DataDirs dirs) row = Ok (os_path_join dir filename).
Proof.
  intros Htgt Hfile Hdir. unfold row_filepath, datapath_getitem, getitem.
  rewrite Htgt. cbn [bind]. rewrite Hdir. cbn [bind]. rewrite Hfile.
  reflexivity.
Qed.

Lemma amax_Ok_nonempty (a : list Numpy.float) (m : Numpy.float) :
  Numpy.amax a = Ok m -> a <> [].
Proof. destruct a; [discriminate | discriminate]. Qed.

Lemma magnitudes_nil (A : Numpy.Arith) (iq0 : Numpy.ndarray) :
  magnitudes A iq0 = [] <-> Numpy.reshape_flat iq0 = [].
Proof.
  unfold magnitudes. destruct (Numpy.reshape_flat iq0); simpl.
  - tauto.
  - split; discriminate.
Qed.

Lemma amax_magnitudes_nonempty (A : Numpy.Arith) (iq0 : Numpy.ndarray) :
  Numpy.reshape_flat iq0 <> [] ->
  exists m, Numpy.amax (magnitudes A iq0) = Ok m.
Proof.
  intros Hne. apply amax_nonempty. intros Hnil.
  apply magnitudes_nil in Hnil. contradiction.
Qed.

(** With the matrix file read, both arrays present, a non-empty IQ array
    and every column in the row, the loop body raises nothing. *)
Lemma generate_row_succeeds (A : Numpy.Arith) (w : World) (dp : datapath_t)
    (row : gmap string string) (mat : gmap string Numpy.ndarray)
    (iq0 : Numpy.ndarray) (m : Numpy.float) :
  row_matfile w dp row = Ok mat ->
  mat !! "iq" = Some iq0 ->
  is_Some (mat !! "dtce") ->
  Numpy.amax (magnitudes A iq0) = Ok m ->
  Forall (fun c => is_Some (row !! c)) manifest_columns ->
  exists key ex, generate_row A w dp row = Ok (key, ex).
Proof.
  intros Hmat Hiq [ref Href] Hm Hcols.
  unfold row_matfile in Hmat. peel Hmat path Hpath.
  unfold manifest_columns in Hcols.
  repeat (apply Forall_cons in Hcols; destruct Hcols as [[? ?] Hcols]).
  unfold generate_row, normalize, getitem.
  rewrite Hpath. cbn [bind]. rewrite Hmat. cbn [bind].
  rewrite Hiq. cbn [bind]. rewrite Hm. cbn [bind]. rewrite Href.
  repeat match goal with
         | H : row !! _ = Some _ |- _ => rewrite H; clear H
         end.
  cbn [bind]. eauto.
Qed.

Lemma generate_rows_single (A : Numpy.Arith) (w : World) (dp : datapath_t)
    (row : gmap string string) (kv : string * Example) :
  generate_row A w dp row = Ok kv ->
  generate_rows A w dp [row] = ([kv], None).
Proof. intros H. simpl. rewrite H. reflexivity. Qed.

(** *** The scenario, evaluated *)

Lemma scenario_row_columns :
  Forall (fun c => is_Some (scenario_row !! c)) manifest_columns.
Proof.
  unfold manifest_columns.
  repeat (constructor; [eexists; reflexivity|]). constructor.
Qed.

Lemma scenario_row_filepath :
  row_filepath (DataDirs scenario_dirs) scenario_row = Ok "/dl/mark/a.mat".
Proof. reflexivity. Qed.

Lemma scenario_row_matfile :
  row_matfile scenario_world (DataDirs scenario_dirs) scenario_row
  = Ok scenario_mat.
Proof. reflexivity. Qed.

Lemma silent_row_matfile :
  row_matfile silent_world (DataDirs scenario_dirs) scenario_row
  = Ok silent_mat.
Proof. reflexivity. Qed.

(** The scenario's row against any matrix file that is in order. *)
Lemma scenario_row_runs (A : Numpy.Arith) (mat : gmap string Numpy.ndarray)
    (iq0 : Numpy.ndarray) :
  mat !! "iq" = Some iq0 ->
  Numpy.reshape_flat iq0 <> [] ->
  is_Some (mat !! "dtce") ->
  exists ex,
    generate_row A
      (single_file_world "/dl/mark.csv" [scenario_row] "/dl/mark/a.mat" mat)
      (DataDirs scenario_dirs) scenario_row
    = Ok ("a.mat", ex).
Proof.
  intros Hiq Hne Hdtce.
  destruct (amax_magnitudes_nonempty A iq0 Hne) as [m Hm].
  destruct (generate_row_succeeds A
              (single_file_world "/dl/mark.csv" [scenario_row]
                 "/dl/mark/a.mat" mat)
              (DataDirs scenario_dirs) scenario_row mat iq0 m)
    as (key & ex & Hgen);
    [reflexivity | exact Hiq | exact Hdtce | exact Hm
     | exact scenario_row_columns |].
  destruct (generate_row_Ok _ _ _ _ _ _ Hgen)
    as (p & mt & i0 & rf & mm & _ & _ & _ & _ & _ & Hkey & _).
  assert (Hfile : scenario_row !! "filename" = Some "a.mat") by reflexivity.
  rewrite Hfile in Hkey. injection Hkey as <-.
  exists ex. exact Hgen.
Qed.

(** ... and the pair the generator then yields for the one-row manifest. *)
Lemma scenario_row_emitted (A : Numpy.Arith)
    (mat : gmap string Numpy.ndarray) (iq0 : Numpy.ndarray) :
  mat !! "iq" = Some iq0 ->
  Numpy.reshape_flat iq0 <> [] ->
  is_Some (mat !! "dtce") ->
  exists ex,
    emitted A
      (single_file_world "/dl/mark.csv" [scenario_row] "/dl/mark/a.mat" mat)
      (DataDirs scenario_dirs) "/dl/mark.csv" 0 scenario_row ("a.mat", ex).
Proof.
  intros Hiq Hne Hdtce.
  destruct (scenario_row_runs A mat iq0 Hiq Hne Hdtce) as (ex & Hgen).
  exists ex, [scenario_row]. split; [reflexivity|]. split; [reflexivity|].
  unfold _generate_examples.
  change (read_csv
            (single_file_world "/dl/mark.csv" [scenario_row]
               "/dl/mark/a.mat" mat) "/dl/mark.csv")
    with (Ok [scenario_row]).
  cbv beta iota.
  rewrite (generate_rows_single A _ _ _ _ Hgen). reflexivity.
Qed.

Lemma scenario_emitted (A : Numpy.Arith) :
  exists ex,
    emitted A scenario_world (DataDirs scenario_dirs) "/dl/mark.csv" 0
      scenario_row ("a.mat", ex).
Proof.
  apply (scenario_row_emitted A scenario_mat scenario_iq);
    [reflexivity | discriminate | eexists; reflexivity].
Qed.
(** ** Keys, paths and order *)

Lemma row_matfile_iq (A : Numpy.Arith) (w : World) (dp : datapath_t)
    (row : gmap string string) (key : string) (ex : Example)
    (mat : gmap string Numpy.ndarray) (iq0 : Numpy.ndarray) :
  generate_row A w dp row = Ok (key, ex) ->
  row_matfile w dp row = Ok mat ->
  mat !! "iq" = Some iq0 ->
  exists m,
    Numpy.amax (magnitudes A iq0) = Ok m /\
    dB (das ex)
    = astype_float32 A
        (decibels A
           (map (fun x => Numpy.true_divide A x m) (magnitudes A iq0))) /\
    real (das ex) = astype_float32 A (real_part (Numpy.reshape_flat iq0)) /\
    imag (das ex) = astype_float32 A (imag_part (Numpy.reshape_flat iq0)).
Proof.
  intros Hgen Hmat Hiq.
  apply generate_row_Ok in Hgen.
  destruct Hgen as (path & mat' & iq0' & ref & m & Hpath & Hmat' & Hiq'
                    & _ & Hm & _ & HdB & Hre & Him & _).
  unfold row_matfile in Hmat. rewrite Hpath in Hmat. cbn [bind] in Hmat.
  assert (mat' = mat) as -> by congruence.
  assert (iq0' = iq0) as -> by congruence.
  exists m. auto.
Qed.

Lemma generate_row_same_file (A : Numpy.Arith) (w1 w2 : World)
    (dp : datapath_t) (row : gmap string string) :
  (forall path, row_filepath dp row = Ok path ->
                loadmat w1 path = loadmat w2 path) ->
  generate_row A w1 dp row = generate_row A w2 dp row.
Proof.
  intros Hsame. unfold generate_row.
  destruct (row_filepath dp row) as [path|e]; [|reflexivity].
  cbn [bind]. rewrite (Hsame path eq_refl). reflexivity.
Qed.

Lemma generate_rows_same_files (A : Numpy.Arith) (w1 w2 : World)
    (dp : datapath_t) (rows : list (gmap string string)) :
  (forall row path, In row rows -> row_filepath dp row = Ok path ->
                    loadmat w1 path = loadmat w2 path) ->
  generate_rows A w1 dp rows = generate_rows A w2 dp rows.
Proof.
  induction rows as [|row rest IH]; intros Hsame; [reflexivity|].
  simpl. rewrite (generate_row_same_file A w1 w2 dp row).
  - rewrite IH; [reflexivity|].
    intros r p Hin. apply Hsame. right. exact Hin.
  - intros p. apply Hsame. left. reflexivity.
Qed.

(** The keys yielded are the filename column, cut where the generator
    stopped. *)
Lemma generate_rows_keys (A : Numpy.Arith) (w : World) (dp : datapath_t)
    (rows : list (gmap string string)) :
  exists n,
    map Some (map fst (fst (generate_rows A w dp rows)))
    = take n (filenames rows).
Proof.
  induction rows as [|row rest [n IH]]; [exists 0%nat; reflexivity|].
  simpl. destruct (generate_row A w dp row) as [[key ex]|e] eqn:Hrow.
  - apply generate_row_Ok in Hrow.
    destruct Hrow as (p & mt & i0 & rf & mm & _ & _ & _ & _ & _ & Hkey & _).
    exists (S n). simpl. rewrite Hkey, IH. reflexivity.
  - exists 0%nat. reflexivity.
Qed.

Lemma generate_rows_prefix (A : Numpy.Arith) (w : World) (dp : datapath_t)
    (pre rest : list (gmap string string)) :
  Forall (row_succeeds A w dp) pre ->
  exists out,
    Forall2 (fun r kv => generate_row A w dp r = Ok kv) pre out /\
    generate_rows A w dp (pre ++ rest)
    = (out ++ fst (generate_rows A w dp rest), snd (generate_rows A w dp rest)).
Proof.
  induction 1 as [|row pre [kv Hrow] _ (out & Hout & IH)].
  - exists []. split; [constructor|]. simpl.
    destruct (generate_rows A w dp rest); reflexivity.
  - exists (kv :: out). split; [constructor; assumption|].
    simpl. rewrite Hrow, IH. reflexivity.
Qed.

Lemma generate_rows_finished (A : Numpy.Arith) (w : World) (dp : datapath_t)
    (rows : list (gmap string string)) :
  snd (generate_rows A w dp rows) = None <-> Forall (row_succeeds A w dp) rows.
Proof.
  induction rows as [|row rest IH]; simpl.
  - split; [constructor | reflexivity].
  - destruct (generate_row A w dp row) as [kv|e] eqn:Hrow; simpl.
    + rewrite IH. split.
      * intros Hrest. constructor; [exists kv; exact Hrow | exact Hrest].
      * intros Hall. apply Forall_cons in Hall. tauto.
    + split; [discriminate|].
      intros Hall. apply Forall_cons in Hall. destruct Hall as [[kv Hkv] _].
      congruence.
Qed.

Lemma generate_rows_length (A : Numpy.Arith) (w : World) (dp : datapath_t)
    (rows : list (gmap string string)) :
  (length (fst (generate_rows A w dp rows)) <= length rows)%nat.
Proof.
  induction rows as [|row rest IH]; simpl; [lia|].
  destruct (generate_row A w dp row); simpl; lia.
Qed.


(** When every row succeeds the generator yields one pair per row, in
    order, ends without an exception, and its keys are the filename
    column. *)
Lemma generate_rows_all (A : Numpy.Arith) (w : World) (dp : datapath_t)
    (rows : list (gmap string string)) :
  Forall (row_succeeds A w dp) rows ->
  Forall2 (fun r kv => generate_row A w dp r = Ok kv)
          rows (fst (generate_rows A w dp rows)) /\
  snd (generate_rows A w dp rows) = None /\
  map Some (map fst (fst (generate_rows A w dp rows))) = filenames rows.
Proof.
  intros Hall.
  destruct (generate_rows_prefix A w dp rows [] Hall) as (out & Hout & Hrun).
  rewrite app_nil_r in Hrun. simpl in Hrun. rewrite app_nil_r in Hrun.
  rewrite Hrun. simpl. split; [exact Hout|]. split; [reflexivity|].
  clear Hrun Hall. induction Hout as [|row [key ex] rest out Hrow _ IH].
  - reflexivity.
  - simpl. rewrite IH. f_equal.
    destruct (generate_row_Ok _ _ _ _ _ _ Hrow)
      as (p & mt & i0 & rf & mm & _ & _ & _ & _ & _ & Hkey & _).
    symmetry. exact Hkey.
Qed.

(** A row all of whose predecessors succeed, and which succeeds itself,
    has its pair yielded at its own position. *)
Lemma generate_rows_reaches (A : Numpy.Arith) (w : World) (dp : datapath_t)
    (rows : list (gmap string string)) (i : nat) (row : gmap string string) :
  rows !! i = Some row ->
  Forall (row_succeeds A w dp) (take (S i) rows) ->
  exists kv,
    fst (generate_rows A w dp rows) !! i = Some kv /\
    generate_row A w dp row = Ok kv.
Proof.
  intros Hrow Hpre.
  destruct (generate_rows_prefix A w dp (take (S i) rows) (drop (S i) rows)
              Hpre) as (out & Hout & Hrun).
  rewrite take_drop in Hrun.
  assert (Hi : take (S i) rows !! i = Some row).
  { rewrite lookup_take_lt by lia. exact Hrow. }
  destruct (Forall2_lookup_l _ _ _ _ _ Hout Hi) as (kv & Hkv & Hgen).
  exists kv. split; [|exact Hgen].
  rewrite Hrun. simpl. apply lookup_app_l_Some. exact Hkv.
Qed.

(** C7: a row whose [target] is ['mark'] has its matrix file resolved by
    joining the reference (mark) data directory with the row's filename;
    a row with any other target has it resolved against the phantom data
    directory. *)
Theorem target_selects_data_directory
    (dirs : gmap string string) (row : gmap string string)
    (tgt filename mark_dir phantom_dir : string) :
  row !! "target" = Some tgt ->
  row !! "filename" = Some filename ->
  dirs !! "mark_data" = Some mark_dir ->
  dirs !! "phantom_data" = Some phantom_dir ->
  (tgt = "mark" ->
   row_filepath (DataDirs dirs) row = Ok (os_path_join mark_dir filename)) /\
  (tgt <> "mark" ->
   row_filepath (DataDirs dirs) row = Ok (os_path_join phantom_dir filename)).
Proof.
  intros Htgt Hfile Hmark Hphantom. split; intros Hcase.
  - apply (row_filepath_run dirs row tgt); [assumption..|].
    subst tgt. exact Hmark.
  - apply (row_filepath_run dirs row tgt); [assumption..|].
    unfold data_key_of. destruct (String.eqb_spec tgt "mark"); [contradiction|].
    exact Hphantom.
Qed.

Lemma target_selects_data_directory_witness :
  scenario_row !! "target" = Some "mark" /\
  scenario_row !! "filename" = Some "a.mat" /\
  scenario_dirs !! "mark_data" = Some "/dl/mark" /\
  scenario_dirs !! "phantom_data" = Some "/dl/phantom" /\
  row_filepath (DataDirs scenario_dirs) scenario_row
  = Ok (os_path_join "/dl/mark" "a.mat").
Proof.
  do 4 (split; [reflexivity|]).
  apply (target_selects_data_directory scenario_dirs scenario_row
           "mark" "a.mat" "/dl/mark" "/dl/phantom"); reflexivity.
Defined.

(** C5: in every record emitted for a manifest row, [das.dB], [das.real]
    and [das.imag] have the same length, which is the number of samples
    of the row's flattened IQ array. *)
Theorem das_sequences_same_length
    (A : Numpy.Arith) (w : World) (dp : datapath_t) (csv : string) (i : nat)
    (row : gmap string string) (key : string) (ex : Example) :
  emitted A w dp csv i row (key, ex) ->
  length (dB (das ex)) = length (real (das ex)) /\
  length (real (das ex)) = length (imag (das ex)) /\
  exists mat iq0,
    row_matfile w dp row = Ok mat /\ mat !! "iq" = Some iq0 /\
    length (dB (das ex)) = length (Numpy.reshape_flat iq0).
Proof.
  intros Hem. apply emitted_generate_row in Hem.
  destruct (generate_row_Ok _ _ _ _ _ _ Hem)
    as (path & mat & iq0 & ref & m & Hpath & Hmat & Hiq & _ & _ & _
        & HdB & Hre & Him & _).
  assert (Hlen : length (dB (das ex)) = length (Numpy.reshape_flat iq0)).
  { rewrite HdB. unfold astype_float32, decibels, magnitudes.
    rewrite !length_map. reflexivity. }
  rewrite Hlen, Hre, Him. unfold astype_float32, real_part, imag_part.
  rewrite !length_map.
  split; [reflexivity|]. split; [reflexivity|].
  exists mat, iq0. unfold row_matfile. rewrite Hpath. cbn [bind].
  auto.
Qed.

Lemma das_sequences_same_length_witness :
  exists ex,
    emitted exact_arith scenario_world (DataDirs scenario_dirs)
      "/dl/mark.csv" 0 scenario_row ("a.mat", ex) /\
    length (dB (das ex)) = length (real (das ex)) /\
    length (real (das ex)) = length (imag (das ex)).
Proof.
  destruct (scenario_emitted exact_arith) as [ex Hem]. exists ex.
  split; [exact Hem|].
  destruct (das_sequences_same_length _ _ _ _ _ _ _ _ Hem) as (H1 & H2 & _).
  split; assumption.
Defined.

(** C8: the key emitted with a record is the row's filename, and a row
    that succeeds after rows that all succeed does have its pair emitted,
    at its own position; hence, when no two rows of the manifest share a
    filename, the keys emitted for that split are pairwise distinct, and
    when every row is valid the keys are the whole filename column. *)
Theorem key_is_filename_and_unique
    (A : Numpy.Arith) (w : World) (dp : datapath_t) (csv : string)
    (rows : list (gmap string string)) :
  read_csv w csv = Ok rows ->
  (forall i row key ex,
     rows !! i = Some row ->
     fst (_generate_examples A w dp csv) !! i = Some (key, ex) ->
     row !! "filename" = Some key) /\
  (forall i row,
     rows !! i = Some row ->
     Forall (row_succeeds A w dp) (take (S i) rows) ->
     exists key ex,
       fst (_generate_examples A w dp csv) !! i = Some (key, ex) /\
       row !! "filename" = Some key) /\
  (NoDup (filenames rows) ->
   NoDup (map fst (fst (_generate_examples A w dp csv)))) /\
  (Forall (row_succeeds A w dp) rows ->
   map Some (map fst (fst (_generate_examples A w dp csv)))
   = filenames rows).
Proof.
  intros Hcsv.
  assert (Hkeys : forall i row key ex,
             rows !! i = Some row ->
             fst (_generate_examples A w dp csv) !! i = Some (key, ex) ->
             row !! "filename" = Some key).
  { intros i row key ex Hrow Hout.
    assert (Hem : emitted A w dp csv i row (key, ex)) by (exists rows; auto).
    apply emitted_generate_row in Hem.
    destruct (generate_row_Ok _ _ _ _ _ _ Hem)
      as (p & mt & i0 & rf & mm & _ & _ & _ & _ & _ & Hkey & _).
    exact Hkey. }
  split; [exact Hkeys|]. split; [|split].
  - intros i row Hrow Hpre.
    destruct (generate_rows_reaches A w dp rows i row Hrow Hpre)
      as ([key ex] & Hout & _).
    assert (Hout' : fst (_generate_examples A w dp csv) !! i
                    = Some (key, ex)).
    { unfold _generate_examples. rewrite Hcsv. exact Hout. }
    exists key, ex. split; [exact Hout'|].
    exact (Hkeys i row key ex Hrow Hout').
  - intros Hnodup. unfold _generate_examples. rewrite Hcsv.
    destruct (generate_rows_keys A w dp rows) as [n Hn].
    apply (NoDup_fmap_1 Some).
    change (NoDup (map Some (map fst (fst (generate_rows A w dp rows))))).
    rewrite Hn. apply (sublist_NoDup _ (filenames rows)); [exact Hnodup|].
    apply sublist_take.
  - intros Hall. unfold _generate_examples. rewrite Hcsv.
    apply generate_rows_all. exact Hall.
Qed.

Lemma phantom_row_columns :
  Forall (fun c => is_Some (phantom_row !! c)) manifest_columns.
Proof.
  unfold manifest_columns.
  repeat (constructor; [eexists; reflexivity|]). constructor.
Qed.

Lemma two_file_rows_succeed (A : Numpy.Arith) :
  Forall (row_succeeds A two_file_world (DataDirs scenario_dirs))
         [scenario_row; phantom_row].
Proof.
  constructor; [|constructor; [|constructor]].
  - destruct (amax_magnitudes_nonempty A scenario_iq) as [m Hm];
      [discriminate|].
    destruct (generate_row_succeeds A two_file_world (DataDirs scenario_dirs)
                scenario_row scenario_mat scenario_iq m)
      as (key & ex & Hgen);
      [reflexivity | reflexivity | eexists; reflexivity | exact Hm
       | exact scenario_row_columns |].
    exists (key, ex). exact Hgen.
  - destruct (amax_magnitudes_nonempty A
                [[ Numpy.finite 3 4; Numpy.finite 0 0 ]]) as [m Hm];
      [discriminate|].
    destruct (generate_row_succeeds A two_file_world (DataDirs scenario_dirs)
                phantom_row gapped_mat
                [[ Numpy.finite 3 4; Numpy.finite 0 0 ]] m)
      as (key & ex & Hgen);
      [reflexivity | reflexivity | eexists; reflexivity | exact Hm
       | exact phantom_row_columns |].
    exists (key, ex). exact Hgen.
Qed.

Lemma key_is_filename_and_unique_witness :
  read_csv two_file_world "/dl/both.csv" = Ok [scenario_row; phantom_row] /\
  Forall (row_succeeds exact_arith two_file_world (DataDirs scenario_dirs))
         [scenario_row; phantom_row] /\
  NoDup (filenames [scenario_row; phantom_row]) /\
  map Some
    (map fst (fst (_generate_examples exact_arith two_file_world
                     (DataDirs scenario_dirs) "/dl/both.csv")))
  = [Some "a.mat"; Some "b.mat"] /\
  NoDup (map fst (fst (_generate_examples exact_arith two_file_world
                         (DataDirs scenario_dirs) "/dl/both.csv"))).
Proof.
  pose proof (two_file_rows_succeed exact_arith) as Hall.
  assert (Hnodup : NoDup (filenames [scenario_row; phantom_row])).
  { change (NoDup [Some "a.mat"; Some "b.mat"]).
    apply (bool_decide_unpack _). reflexivity. }
  split; [reflexivity|]. split; [exact Hall|]. split; [exact Hnodup|].
  destruct (key_is_filename_and_unique exact_arith two_file_world
              (DataDirs scenario_dirs) "/dl/both.csv"
              [scenario_row; phantom_row] eq_refl)
    as (_ & _ & Hdistinct & Hkeys).
  split; [exact (Hkeys Hall) | exact (Hdistinct Hnodup)].
Defined.

(** C10: the generator is a function of the manifest's contents, the
    data-directory mapping and the contents of the matrix files the rows
    point to: two runs that agree on these yield the same pairs and end
    the same way, and the [i]-th pair yielded comes from the [i]-th row of
    the manifest. *)
Theorem generator_is_deterministic
    (A : Numpy.Arith) (w1 w2 : World) (dp : datapath_t) (csv : string) :
  read_csv w1 csv = read_csv w2 csv ->
  (forall rows row path,
     read_csv w1 csv = Ok rows -> In row rows ->
     row_filepath dp row = Ok path ->
     loadmat w1 path = loadmat w2 path) ->
  _generate_examples A w1 dp csv = _generate_examples A w2 dp csv /\
  (forall rows i kv,
     read_csv w1 csv = Ok rows ->
     fst (_generate_examples A w1 dp csv) !! i = Some kv ->
     exists row, rows !! i = Some row /\ generate_row A w1 dp row = Ok kv).
Proof.
  intros Hcsv Hfiles. split.
  - unfold _generate_examples. rewrite <- Hcsv.
    destruct (read_csv w1 csv) as [rows|e] eqn:Hrows; [|reflexivity].
    apply generate_rows_same_files. intros row path. apply Hfiles.
    reflexivity.
  - intros rows i kv Hrows. unfold _generate_examples. rewrite Hrows.
    apply generate_rows_lookup.
Qed.

Lemma generator_is_deterministic_witness :
  read_csv scenario_world "/dl/mark.csv"
  = read_csv crowded_world "/dl/mark.csv" /\
  loadmat scenario_world "/dl/other.mat" <> loadmat crowded_world "/dl/other.mat" /\
  _generate_examples exact_arith scenario_world (DataDirs scenario_dirs)
    "/dl/mark.csv"
  = _generate_examples exact_arith crowded_world (DataDirs scenario_dirs)
      "/dl/mark.csv".
Proof.
  split; [reflexivity|]. split; [discriminate|].
  apply (generator_is_deterministic exact_arith scenario_world crowded_world
           (DataDirs scenario_dirs) "/dl/mark.csv"); [reflexivity|].
  intros rows row path [= <-] [<-|[]] Hpath.
  rewrite scenario_row_filepath in Hpath. injection Hpath as <-.
  reflexivity.
Defined.

(** ** The dB array *)

Section Decibels.

Import Numpy.
Local Open Scope R_scope.

Lemma lookup_map {X Y : Type} (f : X -> Y) (l : list X) (j : nat) (a : X) :
  l !! j = Some a -> map f l !! j = Some (f a).
Proof.
  revert j. induction l as [|x l IH]; intros [|j]; simpl; try discriminate.
  - intros [= ->]. reflexivity.
  - apply IH.
Qed.

(** Normalising by a finite positive maximum, taking [20 * log10] and
    casting to single precision gives an array whose own maximum is
    zero. *)
Lemma amax_decibels_normalized (A : Arith) (l : list float) (mx : R) :
  In (Fin mx) l -> Forall (within mx) l -> 0 < mx ->
  amax (astype_float32 A
          (decibels A (map (fun x => true_divide A x (Fin mx)) l)))
  = Ok (Fin 0).
Proof.
  intros Hin Hall Hpos. unfold astype_float32, decibels. rewrite !map_map.
  apply amax_zero.
  - apply List.Forall_forall. intros v Hv.
    apply in_map_iff in Hv. destruct Hv as (u & <- & Hu).
    rewrite List.Forall_forall in Hall.
    destruct (Hall u Hu) as (x & -> & Hx0 & Hxm).
    apply decibel_at_most_zero; assumption.
  - apply in_map_iff. exists (Fin mx). split; [|exact Hin].
    apply decibel_of_maximum. exact Hpos.
Qed.

Lemma true_divide_zero_by_zero (A : Arith) :
  true_divide A (Fin 0) (Fin 0) = NaN.
Proof.
  simpl. destruct (Req_EM_T 0 0) as [_|H]; [reflexivity | lra].
Qed.

(** Normalising an all-zero array by its maximum, zero, stores [nan]
    everywhere, and [20 * log10] and the cast keep it. *)
Lemma normalize_all_zero (A : Arith) (zs : list complex) :
  Forall (fun z => z = finite 0 0) zs ->
  map (fun x => true_divide A x (Fin 0)) (map (abs A) zs)
  = repeat NaN (length zs).
Proof.
  induction 1 as [|z zs -> _ IH]; [reflexivity|].
  cbn [map length repeat].
  rewrite abs_zero, true_divide_zero_by_zero.
  f_equal. exact IH.
Qed.

Lemma decibels_nan (A : Arith) (n : nat) :
  astype_float32 A (decibels A (repeat NaN n)) = repeat NaN n.
Proof. induction n as [|n IH]; simpl; [reflexivity | f_equal; exact IH]. Qed.

Lemma amax_magnitudes_zero (A : Arith) (iq0 : ndarray) :
  amax (magnitudes A iq0) = Ok (Fin 0) ->
  Forall (fun z => z = finite 0 0) (reshape_flat iq0).
Proof.
  intros Hm. apply amax_Fin in Hm. destruct Hm as [Hall _].
  unfold magnitudes in Hall. rewrite List.Forall_forall in Hall.
  apply List.Forall_forall. intros z Hz.
  specialize (Hall (abs A z) (in_map _ _ _ Hz)).
  destruct (abs A z) as [x| | |] eqn:Habs; simpl in Hall; try contradiction.
  - pose proof (abs_Fin A z x Habs) as (a & b & _ & _ & Hx).
    assert (x = 0) by lra. subst x. apply (abs_Fin_zero A). exact Habs.
  - exfalso. exact (abs_not_NInf A z Habs).
Qed.

(** With a finite maximum and a non-zero sample, every magnitude lies
    between zero and the maximum, and the maximum is positive. *)
Lemma amax_magnitudes_positive (A : Arith) (iq0 : ndarray) (mx : R) :
  amax (magnitudes A iq0) = Ok (Fin mx) ->
  Exists (fun z => z <> finite 0 0) (reshape_flat iq0) ->
  0 < mx /\
  In (Fin mx) (magnitudes A iq0) /\
  Forall (within mx) (magnitudes A iq0).
Proof.
  intros Hm Hnz. apply amax_Fin in Hm. destruct Hm as [Hall Hin].
  assert (Hwithin : Forall (within mx) (magnitudes A iq0)).
  { unfold magnitudes in *. rewrite List.Forall_forall in Hall.
    apply List.Forall_forall. intros v Hv.
    pose proof (Hall v Hv) as Hle.
    apply in_map_iff in Hv. destruct Hv as (z & <- & Hz).
    destruct (abs A z) as [x| | |] eqn:Habs; simpl in Hle;
      try contradiction.
    - pose proof (abs_Fin A z x Habs) as (a & b & _ & _ & Hx).
      exists x. auto.
    - exfalso. exact (abs_not_NInf A z Habs). }
  split; [|split; assumption].
  apply List.Exists_exists in Hnz. destruct Hnz as (z & Hz & Hne).
  rewrite List.Forall_forall in Hwithin.
  destruct (Hwithin (abs A z)) as (x & Habs & Hx0 & Hxm).
  { unfold magnitudes. apply in_map. exact Hz. }
  destruct (Req_dec x 0) as [->|Hx]; [|lra].
  apply abs_Fin_zero in Habs. contradiction.
Qed.

Lemma squares_close (p q d : R) :
  Rabs (p - q) <= d -> Rabs (p * p - q * q) <= squares_gap d (Rabs q).
Proof.
  intros H. apply Rabs_bounds in H. apply Rabs_bounds.
  unfold squares_gap, Rabs. destruct (Rcase_abs q); split; nra.
Qed.

Lemma sqrt_bound (a b c : R) :
  0 <= c -> a * a + b * b <= c * c -> sqrt (a * a + b * b) <= c.
Proof.
  intros Hc H. rewrite <- (sqrt_square c Hc). apply sqrt_le_1_alt. exact H.
Qed.

(** The sum of the squares of the two parts, each cast to single
    precision, against the square of the magnitude [hypot] computed. *)
Lemma squares_within_tolerance (A : Arith) (a b x y mag : R) :
  astype_single A (Fin a) = Fin x ->
  astype_single A (Fin b) = Fin y ->
  abs A (finite a b) = Fin mag ->
  Rabs (x * x + y * y - mag * mag) <= rounding_tolerance A a b.
Proof.
  intros Hx Hy Hmag.
  apply round_Fin in Hx. apply round_Fin in Hy.
  apply abs_Fin in Hmag. destruct Hmag as (a' & b' & [= <- <-] & -> & _).
  pose proof (hypot_error A a b) as Hh.
  pose proof (sqrt_pos (a * a + b * b)) as Hs0.
  assert (Hs : sqrt (a * a + b * b) * sqrt (a * a + b * b) = a * a + b * b).
  { apply sqrt_sqrt. nra. }
  apply squares_close in Hx. apply squares_close in Hy.
  apply squares_close in Hh.
  rewrite (Rabs_pos_eq (sqrt (a * a + b * b))) in Hh by exact Hs0.
  unfold rounding_tolerance.
  replace (x * x + y * y - hypot A a b * hypot A a b)
    with ((x * x - a * a) + (y * y - b * b)
          - (hypot A a b * hypot A a b
             - sqrt (a * a + b * b) * sqrt (a * a + b * b)))
    by (rewrite Hs; ring).
  apply Rabs_bounds in Hx. apply Rabs_bounds in Hy. apply Rabs_bounds in Hh.
  apply Rabs_bounds. lra.
Qed.

End Decibels.

Lemma row_matfile_dtce (A : Numpy.Arith) (w : World) (dp : datapath_t)
    (row : gmap string string) (key : string) (ex : Example)
    (mat : gmap string Numpy.ndarray) (ref : Numpy.ndarray) :
  generate_row A w dp row = Ok (key, ex) ->
  row_matfile w dp row = Ok mat ->
  mat !! "dtce" = Some ref ->
  dtce ex = astype_float32 A (real_part (Numpy.reshape_flat ref)) /\
  row !! "filename" = Some key /\
  row !! "harm" = Some (harmonic ex).
Proof.
  intros Hgen Hmat Href.
  apply generate_row_Ok in Hgen.
  destruct Hgen as (path & mat' & iq0 & ref' & m & Hpath & Hmat' & _
                    & Href' & _ & Hkey & _ & _ & _ & Hdtce & Hharm).
  unfold row_matfile in Hmat. rewrite Hpath in Hmat. cbn [bind] in Hmat.
  assert (mat' = mat) as -> by congruence.
  assert (ref' = ref) as -> by congruence.
  auto.
Qed.

Lemma silent_amax (A : Numpy.Arith) :
  Numpy.amax (magnitudes A [[ Numpy.finite 0 0; Numpy.finite 0 0 ]])
  = Ok (Numpy.Fin 0).
Proof.
  unfold magnitudes.
  cbn [Numpy.reshape_flat concat app map Numpy.amax fold_left].
  rewrite abs_zero. cbn [Numpy.fmax].
  rewrite Rmax_left by lra. reflexivity.
Qed.

(** C3: for a row whose flattened IQ array has maximum magnitude zero,
    every sample is zero and the normalisation divides every magnitude by
    that zero maximum: nothing is raised and nothing is substituted, the
    row is emitted like any other and its [das.dB] holds [nan] throughout. *)
Theorem zero_array_division_is_unguarded
    (A : Numpy.Arith) (w : World) (dp : datapath_t)
    (row : gmap string string)
    (mat : gmap string Numpy.ndarray) (iq0 : Numpy.ndarray) :
  row_matfile w dp row = Ok mat ->
  mat !! "iq" = Some iq0 ->
  Numpy.amax (magnitudes A iq0) = Ok (Numpy.Fin 0) ->
  Forall (fun z => z = Numpy.finite 0 0) (Numpy.reshape_flat iq0) /\
  normalize A (magnitudes A iq0)
  = Ok (map (fun x => Numpy.true_divide A x (Numpy.Fin 0))
            (magnitudes A iq0)) /\
  normalize A (magnitudes A iq0)
  = Ok (repeat Numpy.NaN (length (Numpy.reshape_flat iq0))) /\
  (forall key ex,
     generate_row A w dp row = Ok (key, ex) ->
     dB (das ex) = repeat Numpy.NaN (length (Numpy.reshape_flat iq0))) /\
  (is_Some (mat !! "dtce") ->
   Forall (fun c => is_Some (row !! c)) manifest_columns ->
   exists key ex, generate_row A w dp row = Ok (key, ex)).
Proof.
  intros Hmat Hiq Hmax.
  pose proof (amax_magnitudes_zero A iq0 Hmax) as Hzero.
  assert (Hnorm : normalize A (magnitudes A iq0)
                  = Ok (map (fun x => Numpy.true_divide A x (Numpy.Fin 0))
                            (magnitudes A iq0))).
  { unfold normalize. rewrite Hmax. reflexivity. }
  assert (Hnan : map (fun x => Numpy.true_divide A x (Numpy.Fin 0))
                     (magnitudes A iq0)
                 = repeat Numpy.NaN (length (Numpy.reshape_flat iq0))).
  { apply normalize_all_zero. exact Hzero. }
  split; [exact Hzero|]. split; [exact Hnorm|].
  split; [rewrite Hnorm, Hnan; reflexivity|]. split.
  - intros key ex Hgen.
    destruct (row_matfile_iq _ _ _ _ _ _ _ _ Hgen Hmat Hiq)
      as (m & Hm & HdB & _).
    rewrite Hmax in Hm. injection Hm as <-.
    rewrite HdB, Hnan. apply decibels_nan.
  - intros Hdtce Hcols.
    exact (generate_row_succeeds A w dp row mat iq0 _ Hmat Hiq Hdtce Hmax
             Hcols).
Qed.

Lemma zero_array_division_is_unguarded_witness :
  row_matfile silent_world (DataDirs scenario_dirs) scenario_row
  = Ok silent_mat /\
  silent_mat !! "iq" = Some [[ Numpy.finite 0 0; Numpy.finite 0 0 ]] /\
  Numpy.amax (magnitudes exact_arith [[ Numpy.finite 0 0; Numpy.finite 0 0 ]])
  = Ok (Numpy.Fin 0) /\
  exists key ex,
    generate_row exact_arith silent_world (DataDirs scenario_dirs)
      scenario_row
    = Ok (key, ex) /\
    dB (das ex) = [Numpy.NaN; Numpy.NaN].
Proof.
  split; [exact silent_row_matfile|]. split; [reflexivity|].
  split; [exact (silent_amax exact_arith)|].
  destruct (zero_array_division_is_unguarded exact_arith silent_world
              (DataDirs scenario_dirs) scenario_row silent_mat
              [[ Numpy.finite 0 0; Numpy.finite 0 0 ]]
              silent_row_matfile eq_refl (silent_amax exact_arith))
    as (_ & _ & _ & HdB & Hrun).
  destruct Hrun as (key & ex & Hgen).
  - eexists; reflexivity.
  - exact scenario_row_columns.
  - exists key, ex. split; [exact Hgen|]. exact (HdB key ex Hgen).
Defined.

(** *** Evaluating with the exact arithmetic *)

Section ExactArith.

Import Numpy.
Local Open Scope R_scope.

Lemma double_largest_below_four : double_largest < 4 * 2 ^ 1022.
Proof.
  unfold double_largest. change (2 ^ 1023) with (2 * 2 ^ 1022).
  assert (HP : 0 < 2 ^ 1022) by (apply pow_lt; lra).
  assert (He : 0 < / 2 ^ 52) by (apply Rinv_0_lt_compat, pow_lt; lra).
  nra.
Qed.

Lemma double_largest_above (n : nat) :
  (n <= 1023)%nat -> 2 ^ n <= double_largest.
Proof.
  intros Hn. unfold double_largest.
  assert (Hle : 2 ^ n <= 2 ^ 1023) by (apply Rle_pow; [lra | exact Hn]).
  assert (HP : 0 < 2 ^ n) by (apply pow_lt; lra).
  assert (H52 : 1 <= 2 ^ 52) by (apply pow_R1_Rle; lra).
  assert (Hinv : / 2 ^ 52 <= 1).
  { rewrite <- Rinv_1. apply Rinv_le_contravar; lra. }
  nra.
Qed.

Lemma single_largest_below : single_largest < 2 * 2 ^ 127.
Proof.
  unfold single_largest.
  assert (HP : 0 < 2 ^ 127) by (apply pow_lt; lra).
  assert (He : 0 < / 2 ^ 23) by (apply Rinv_0_lt_compat, pow_lt; lra).
  nra.
Qed.

Lemma exact_abs (a b : R) :
  abs exact_arith (finite a b)
  = finite_or_inf binary64_exact (sqrt (a * a + b * b)).
Proof. reflexivity. Qed.

(** The modulus of the huge sample is beyond binary64. *)
Lemma abs_huge : abs exact_arith (finite huge huge) = PInf.
Proof.
  rewrite exact_abs. unfold finite_or_inf.
  change (largest binary64_exact) with double_largest.
  destruct (Rlt_dec double_largest (sqrt (huge * huge + huge * huge)))
    as [_|Hn]; [reflexivity|].
  exfalso. apply Hn. pose proof double_largest_below_four as Hd.
  assert (HP : 0 < 2 ^ 1022) by (apply pow_lt; lra).
  assert (Hs : 4 * 2 ^ 1022 <= sqrt (huge * huge + huge * huge)).
  { rewrite <- (sqrt_square (4 * 2 ^ 1022)) by lra.
    apply sqrt_le_1_alt. unfold huge. nra. }
  lra.
Qed.

Lemma abs_unit (A : Arith) : abs A (finite 1 0) = Fin (hypot A 1 0).
Proof.
  apply abs_finite. apply sqrt_bound; lra.
Qed.

Lemma log10_zero (A : Arith) : log10 A (Fin 0) = NInf.
Proof.
  simpl. destruct (Rlt_dec 0 0) as [H|_]; [lra|].
  destruct (Req_EM_T 0 0) as [_|H]; [reflexivity | contradiction].
Qed.

(** 2^130 is a binary64 value and beyond binary32. *)
Lemma abs_beyond_single :
  abs exact_arith (finite beyond_single 0) = Fin beyond_single.
Proof.
  rewrite exact_abs.
  assert (HW : 0 <= beyond_single).
  { unfold beyond_single. left. apply pow_lt. lra. }
  replace (beyond_single * beyond_single + 0 * 0)
    with (beyond_single * beyond_single) by lra.
  rewrite (sqrt_square _ HW). apply finite_or_inf_in_range.
  change (largest binary64_exact) with double_largest.
  pose proof (double_largest_above 130 ltac:(lia)) as Hd.
  fold beyond_single in Hd. lra.
Qed.

Lemma astype_beyond_single :
  astype_single exact_arith (Fin beyond_single) = PInf.
Proof.
  change (astype_single exact_arith (Fin beyond_single))
    with (finite_or_inf binary32_exact beyond_single).
  unfold finite_or_inf.
  change (largest binary32_exact) with single_largest.
  destruct (Rlt_dec single_largest beyond_single) as [_|Hn]; [reflexivity|].
  exfalso. apply Hn. pose proof single_largest_below as Hs.
  assert (HP : 0 < 2 ^ 127) by (apply pow_lt; lra).
  assert (HW : beyond_single = 8 * 2 ^ 127).
  { unfold beyond_single. change 130%nat with (3 + 127)%nat.
    rewrite pow_add. simpl (2 ^ 3). lra. }
  lra.
Qed.

End ExactArith.

(** C4 (as stated, refuted): an IQ array with a non-zero sample whose
    modulus is beyond the working format.  The magnitude overflows to
    [inf], the normalisation computes [inf / inf], and the maximum of
    [das.dB] is [nan]. *)
Lemma max_dB_is_nan_when_magnitude_overflows :
  exists ex,
    emitted exact_arith overflowing_world (DataDirs scenario_dirs)
      "/dl/mark.csv" 0 scenario_row ("a.mat", ex) /\
    row_matfile overflowing_world (DataDirs scenario_dirs) scenario_row
    = Ok overflowing_mat /\
    overflowing_mat !! "iq" = Some overflowing_iq /\
    Exists (fun z => z <> Numpy.finite 0 0)
           (Numpy.reshape_flat overflowing_iq) /\
    dB (das ex) = [Numpy.NaN; Numpy.NInf] /\
    Numpy.amax (dB (das ex)) = Ok Numpy.NaN /\
    Numpy.amax (dB (das ex)) <> Ok (Numpy.Fin 0).
Proof.
  destruct (scenario_row_emitted exact_arith overflowing_mat overflowing_iq)
    as (ex & Hem); [reflexivity | discriminate | eexists; reflexivity |].
  exists ex. split; [exact Hem|]. split; [reflexivity|].
  split; [reflexivity|].
  split.
  { apply Exists_cons_tl, Exists_cons_hd. intros [= H]. lra. }
  pose proof (emitted_generate_row _ _ _ _ _ _ _ Hem) as Hgen.
  destruct (row_matfile_iq exact_arith overflowing_world _ _ _ _
              overflowing_mat overflowing_iq Hgen eq_refl eq_refl)
    as (m & Hm & HdB & _).
  assert (Hmag : magnitudes exact_arith overflowing_iq
                 = [Numpy.PInf; Numpy.Fin (Numpy.hypot exact_arith 1 0)]).
  { unfold magnitudes, overflowing_iq.
    cbn [Numpy.reshape_flat concat app map].
    rewrite abs_huge, abs_unit. reflexivity. }
  rewrite Hmag in Hm, HdB. injection Hm as <-.
  assert (HdB' : dB (das ex) = [Numpy.NaN; Numpy.NInf]).
  { rewrite HdB. unfold astype_float32, decibels. cbn [map].
    change (Numpy.true_divide exact_arith Numpy.PInf
              (Numpy.fmax Numpy.PInf
                 (Numpy.Fin (Numpy.hypot exact_arith 1 0))))
      with Numpy.NaN.
    change (Numpy.true_divide exact_arith
              (Numpy.Fin (Numpy.hypot exact_arith 1 0))
              (Numpy.fmax Numpy.PInf
                 (Numpy.Fin (Numpy.hypot exact_arith 1 0))))
      with (Numpy.Fin 0).
    rewrite log10_zero. reflexivity. }
  rewrite HdB'. split; [reflexivity|]. split; [reflexivity | discriminate].
Qed.

(** C4 (amended): for every manifest row whose IQ array contains a
    non-zero sample and whose largest magnitude is finite (no [nan] or
    [inf] sample and no overflow in [np.abs]), the maximum of the emitted
    [das.dB] is exactly 0. *)
Theorem max_dB_is_zero
    (A : Numpy.Arith) (w : World) (dp : datapath_t) (csv : string) (i : nat)
    (row : gmap string string) (key : string) (ex : Example)
    (mat : gmap string Numpy.ndarray) (iq0 : Numpy.ndarray) (mx : R) :
  emitted A w dp csv i row (key, ex) ->
  row_matfile w dp row = Ok mat ->
  mat !! "iq" = Some iq0 ->
  Exists (fun z => z <> Numpy.finite 0 0) (Numpy.reshape_flat iq0) ->
  Numpy.amax (magnitudes A iq0) = Ok (Numpy.Fin mx) ->
  Numpy.amax (dB (das ex)) = Ok (Numpy.Fin 0).
Proof.
  intros Hem Hmat Hiq Hnz Hmx. apply emitted_generate_row in Hem.
  destruct (row_matfile_iq _ _ _ _ _ _ _ _ Hem Hmat Hiq)
    as (m & Hm & HdB & _).
  rewrite Hmx in Hm. injection Hm as <-.
  destruct (amax_magnitudes_positive A iq0 mx Hmx Hnz)
    as (Hpos & Hin & Hall).
  rewrite HdB. apply amax_decibels_normalized; assumption.
Qed.

Lemma scenario_iq_nonzero :
  Exists (fun z => z <> Numpy.finite 0 0) (Numpy.reshape_flat scenario_iq).
Proof.
  apply Exists_cons_hd. intros [= H _]. lra.
Qed.

(** The scenario's magnitudes are finite in every arithmetic. *)
Lemma scenario_amax (A : Numpy.Arith) :
  Numpy.amax (magnitudes A scenario_iq)
  = Ok (Numpy.Fin (Rmax (Numpy.hypot A 1 1) (Numpy.hypot A 0 2))).
Proof.
  unfold magnitudes, scenario_iq.
  cbn [Numpy.reshape_flat concat app map].
  rewrite !abs_finite by (apply sqrt_bound; lra).
  reflexivity.
Qed.

Lemma max_dB_is_zero_witness :
  exists ex,
    emitted exact_arith scenario_world (DataDirs scenario_dirs)
      "/dl/mark.csv" 0 scenario_row ("a.mat", ex) /\
    row_matfile scenario_world (DataDirs scenario_dirs) scenario_row
    = Ok scenario_mat /\
    scenario_mat !! "iq" = Some scenario_iq /\
    Exists (fun z => z <> Numpy.finite 0 0)
           (Numpy.reshape_flat scenario_iq) /\
    Numpy.amax (magnitudes exact_arith scenario_iq)
    = Ok (Numpy.Fin (Rmax (Numpy.hypot exact_arith 1 1)
                          (Numpy.hypot exact_arith 0 2))) /\
    Numpy.amax (dB (das ex)) = Ok (Numpy.Fin 0).
Proof.
  destruct (scenario_emitted exact_arith) as [ex Hem]. exists ex.
  split; [exact Hem|]. split; [exact scenario_row_matfile|].
  split; [reflexivity|]. split; [exact scenario_iq_nonzero|].
  split; [exact (scenario_amax exact_arith)|].
  exact (max_dB_is_zero _ _ _ _ _ _ _ _ _ _ _ Hem scenario_row_matfile
           eq_refl scenario_iq_nonzero (scenario_amax exact_arith)).
Defined.

(** C6 (as stated, refuted): a sample whose real part, 2^130, is a value
    of the working format and beyond the single range.  Its magnitude is
    finite, its [das.real] entry is [inf]: the two squares cannot agree
    within any tolerance. *)
Lemma real_part_overflows_single_precision :
  exists ex,
    emitted exact_arith wide_world (DataDirs scenario_dirs)
      "/dl/mark.csv" 0 scenario_row ("a.mat", ex) /\
    row_matfile wide_world (DataDirs scenario_dirs) scenario_row
    = Ok wide_mat /\
    wide_mat !! "iq" = Some wide_iq /\
    Numpy.reshape_flat wide_iq !! 0%nat
    = Some (Numpy.finite beyond_single 0) /\
    magnitudes exact_arith wide_iq !! 0%nat
    = Some (Numpy.Fin beyond_single) /\
    real (das ex) !! 0%nat = Some Numpy.PInf /\
    imag (das ex) !! 0%nat = Some (Numpy.Fin 0).
Proof.
  destruct (scenario_row_emitted exact_arith wide_mat wide_iq)
    as (ex & Hem); [reflexivity | discriminate | eexists; reflexivity |].
  exists ex. split; [exact Hem|]. do 3 (split; [reflexivity|]).
  pose proof (emitted_generate_row _ _ _ _ _ _ _ Hem) as Hgen.
  destruct (row_matfile_iq exact_arith wide_world _ _ _ _
              wide_mat wide_iq Hgen eq_refl eq_refl)
    as (m & _ & _ & Hre & Him).
  split; [|split].
  - unfold magnitudes, wide_iq. cbn [Numpy.reshape_flat concat app map].
    rewrite abs_beyond_single. reflexivity.
  - rewrite Hre. unfold astype_float32, real_part, wide_iq.
    cbn [Numpy.reshape_flat concat app map Numpy.finite Numpy.re].
    rewrite astype_beyond_single. reflexivity.
  - rewrite Him. unfold astype_float32, imag_part, wide_iq.
    cbn [Numpy.reshape_flat concat app map Numpy.finite Numpy.im].
    cbn [Numpy.astype_single]. rewrite round_zero. reflexivity.
Qed.

(** C6 (amended): at every index [j] of the flattened IQ array,
    [das.real[j]] and [das.imag[j]] are the real and imaginary parts of
    the sample itself (not of the normalised array) cast to single
    precision; when the sample's parts are finite and the two casts and
    the magnitude computed before normalisation are finite, the sum of
    the squares of the two differs from the square of that magnitude by
    no more than the rounding tolerance of the cast and of [hypot]. *)
Theorem real_imag_squares_give_magnitude
    (A : Numpy.Arith) (w : World) (dp : datapath_t) (csv : string) (i : nat)
    (row : gmap string string) (key : string) (ex : Example)
    (mat : gmap string Numpy.ndarray) (iq0 : Numpy.ndarray)
    (j : nat) (z : Numpy.complex) :
  emitted A w dp csv i row (key, ex) ->
  row_matfile w dp row = Ok mat ->
  mat !! "iq" = Some iq0 ->
  Numpy.reshape_flat iq0 !! j = Some z ->
  real (das ex) !! j = Some (Numpy.astype_single A (Numpy.re z)) /\
  imag (das ex) !! j = Some (Numpy.astype_single A (Numpy.im z)) /\
  magnitudes A iq0 !! j = Some (Numpy.abs A z) /\
  (forall a b x y mag : R,
     z = Numpy.finite a b ->
     real (das ex) !! j = Some (Numpy.Fin x) ->
     imag (das ex) !! j = Some (Numpy.Fin y) ->
     magnitudes A iq0 !! j = Some (Numpy.Fin mag) ->
     (Rabs (x * x + y * y - mag * mag) <= rounding_tolerance A a b)%R).
Proof.
  intros Hem Hmat Hiq Hz. apply emitted_generate_row in Hem.
  destruct (row_matfile_iq _ _ _ _ _ _ _ _ Hem Hmat Hiq)
    as (m & _ & _ & Hre & Him).
  assert (Hx : real (das ex) !! j
               = Some (Numpy.astype_single A (Numpy.re z))).
  { rewrite Hre. unfold astype_float32, real_part.
    exact (lookup_map _ _ _ _ (lookup_map Numpy.re _ _ _ Hz)). }
  assert (Hy : imag (das ex) !! j
               = Some (Numpy.astype_single A (Numpy.im z))).
  { rewrite Him. unfold astype_float32, imag_part.
    exact (lookup_map _ _ _ _ (lookup_map Numpy.im _ _ _ Hz)). }
  assert (Hmag : magnitudes A iq0 !! j = Some (Numpy.abs A z)).
  { unfold magnitudes. exact (lookup_map _ _ _ _ Hz). }
  split; [exact Hx|]. split; [exact Hy|]. split; [exact Hmag|].
  intros a b x y mag -> Hx' Hy' Hmag'.
  rewrite Hx in Hx'. rewrite Hy in Hy'. rewrite Hmag in Hmag'.
  injection Hx' as Hx'. injection Hy' as Hy'. injection Hmag' as Hmag'.
  exact (squares_within_tolerance A a b x y mag Hx' Hy' Hmag').
Qed.

Lemma real_imag_squares_give_magnitude_witness :
  exists (ex : Example) (x y mag : R),
    emitted exact_arith scenario_world (DataDirs scenario_dirs)
      "/dl/mark.csv" 0 scenario_row ("a.mat", ex) /\
    Numpy.reshape_flat scenario_iq !! 1%nat = Some (Numpy.finite 0 2) /\
    real (das ex) !! 1%nat = Some (Numpy.Fin x) /\
    imag (das ex) !! 1%nat = Some (Numpy.Fin y) /\
    magnitudes exact_arith scenario_iq !! 1%nat = Some (Numpy.Fin mag) /\
    x = 0%R /\ y = 2%R /\
    (Rabs (x * x + y * y - mag * mag)
     <= rounding_tolerance exact_arith 0 2)%R.
Proof.
  destruct (scenario_emitted exact_arith) as [ex Hem].
  destruct (real_imag_squares_give_magnitude exact_arith _ _ _ _ _ _ _ _ _
              1%nat (Numpy.finite 0 2) Hem scenario_row_matfile eq_refl
              eq_refl)
    as (Hx & Hy & Hmag & Htol).
  assert (Hx0 : Numpy.astype_single exact_arith (Numpy.Fin 0) = Numpy.Fin 0).
  { apply round_zero. }
  assert (Hy2 : Numpy.astype_single exact_arith (Numpy.Fin 2) = Numpy.Fin 2).
  { apply (round_integer _ 2). simpl. lia. }
  assert (Hm : Numpy.abs exact_arith (Numpy.finite 0 2)
               = Numpy.Fin (Numpy.hypot exact_arith 0 2)).
  { apply abs_finite. apply sqrt_bound; lra. }
  cbn [Numpy.finite Numpy.re Numpy.im] in Hx, Hy.
  rewrite Hx0 in Hx. rewrite Hy2 in Hy. rewrite Hm in Hmag.
  exists ex, 0%R, 2%R, (Numpy.hypot exact_arith 0 2).
  split; [exact Hem|]. split; [reflexivity|].
  split; [exact Hx|]. split; [exact Hy|]. split; [exact Hmag|].
  split; [reflexivity|]. split; [reflexivity|].
  exact (Htol 0%R 2%R 0%R 2%R _ eq_refl Hx Hy Hmag).
Defined.

Lemma rounding_tolerance_exact (a b : R) :
  rounding_tolerance exact_arith a b = 0%R.
Proof.
  unfold rounding_tolerance, squares_gap.
  change (Numpy.unit_roundoff (Numpy.single exact_arith)) with 0%R.
  change (Numpy.tiny (Numpy.single exact_arith)) with 0%R.
  change (Numpy.hypot_roundoff exact_arith) with 0%R.
  change (Numpy.tiny (Numpy.working exact_arith)) with 0%R.
  ring.
Qed.

(** *** The end-to-end scenario *)

(** A value between 0 and 1 cast to single precision: finite, and within
    the rounding error of the value. *)
Lemma astype_unit_interval (A : Numpy.Arith) (r : R) :
  (0 <= r <= 1)%R ->
  exists d,
    Numpy.astype_single A (Numpy.Fin r) = Numpy.Fin d /\
    (Rabs (d - r)
     <= Numpy.unit_roundoff (Numpy.single A) * r
        + Numpy.tiny (Numpy.single A))%R.
Proof.
  intros Hr. destruct (round_unit_interval (Numpy.single A) r Hr)
    as (d & Hd & _).
  exists d. split; [exact Hd|].
  pose proof (round_Fin _ _ _ Hd) as He.
  rewrite (Rabs_pos_eq r) in He by lra. exact He.
Qed.

(** C9 (as stated, refuted): in the scenario the record's [harmonic] is
    the string ["False"] of the manifest, not the boolean [False]; as a
    Python value it is true. *)
Lemma scenario_harmonic_is_a_string :
  exists ex,
    _generate_examples exact_arith scenario_world (DataDirs scenario_dirs)
      "/dl/mark.csv"
    = ([("a.mat", ex)], None) /\
    pyvalue_item (example_dict ex) "harmonic" = Some (PyStr "False") /\
    pyvalue_item (example_dict ex) "harmonic" <> Some (PyBool false) /\
    truth_value (PyStr "False") = Some true.
Proof.
  destruct (scenario_row_runs exact_arith scenario_mat scenario_iq)
    as (ex & Hgen); [reflexivity | discriminate | eexists; reflexivity |].
  exists ex.
  assert (Hharm : harmonic ex = "False").
  { destruct (generate_row_metadata _ _ _ _ _ _ Hgen)
      as (_ & _ & _ & _ & _ & _ & _ & _ & _ & _ & _ & _ & _ & H).
    assert (Hrow : scenario_row !! "harm" = Some "False") by reflexivity.
    rewrite Hrow in H. injection H as <-. reflexivity. }
  split.
  { unfold _generate_examples.
    change (read_csv scenario_world "/dl/mark.csv") with (Ok [scenario_row]).
    cbv beta iota.
    exact (generate_rows_single exact_arith scenario_world _ _ _ Hgen). }
  assert (Hitem : pyvalue_item (example_dict ex) "harmonic"
                  = Some (PyStr (harmonic ex))) by reflexivity.
  rewrite Hitem, Hharm.
  split; [reflexivity|]. split; [discriminate | reflexivity].
Qed.

(** C9 (amended): the end-to-end scenario.  A manifest with the single
    row [{filename: "a.mat", target: "mark", f0: "5000000", v: "30", ...,
    harm: "False"}] and, under the reference directory, a matrix file with
    [iq = [1+1j, 0+2j]] and [dtce = [0.1, 0.2]]: the generator yields
    exactly one pair, with key ["a.mat"], [das.real = [1, 0]],
    [das.imag = [1, 2]], [das.dB] of length 2 with maximum 0, [dtce] the
    single-precision values of 0.1 and 0.2, and [harmonic] the string
    ["False"] copied from the row (not the boolean [False]). *)
Theorem end_to_end_scenario
    (A : Numpy.Arith) (w : World) (dirs : gmap string string)
    (csv ref_dir : string)
    (row : gmap string string) (mat : gmap string Numpy.ndarray)
    (iq0 ref : Numpy.ndarray) :
  read_csv w csv = Ok [row] ->
  row !! "filename" = Some "a.mat" ->
  row !! "target" = Some "mark" ->
  row !! "f0" = Some "5000000" ->
  row !! "v" = Some "30" ->
  row !! "harm" = Some "False" ->
  Forall (fun c => is_Some (row !! c)) manifest_columns ->
  dirs !! "mark_data" = Some ref_dir ->
  loadmat w (os_path_join ref_dir "a.mat") = Ok mat ->
  mat !! "iq" = Some iq0 ->
  Numpy.reshape_flat iq0 = [Numpy.finite 1 1; Numpy.finite 0 2] ->
  mat !! "dtce" = Some ref ->
  Numpy.reshape_flat ref
  = [Numpy.finite (1 / 10) 0; Numpy.finite (2 / 10) 0] ->
  exists ex,
    _generate_examples A w (DataDirs dirs) csv = ([("a.mat", ex)], None) /\
    real (das ex) = [Numpy.Fin 1; Numpy.Fin 0] /\
    imag (das ex) = [Numpy.Fin 1; Numpy.Fin 2] /\
    length (dB (das ex)) = 2%nat /\
    Numpy.amax (dB (das ex)) = Ok (Numpy.Fin 0) /\
    (exists d1 d2 : R,
       dtce ex = [Numpy.Fin d1; Numpy.Fin d2] /\
       (Rabs (d1 - 1 / 10)
        <= Numpy.unit_roundoff (Numpy.single A) * (1 / 10)
           + Numpy.tiny (Numpy.single A))%R /\
       (Rabs (d2 - 2 / 10)
        <= Numpy.unit_roundoff (Numpy.single A) * (2 / 10)
           + Numpy.tiny (Numpy.single A))%R) /\
    f0_hz ex = "5000000" /\
    voltage ex = "30" /\
    harmonic ex = "False" /\
    pyvalue_item (example_dict ex) "harmonic" = Some (PyStr "False").
Proof.
  intros Hcsv Hfile Htgt Hf0 Hv Hharm Hcols Hdir Hload Hiq Hflat Href Hrflat.
  assert (Hpath : row_filepath (DataDirs dirs) row
                  = Ok (os_path_join ref_dir "a.mat")).
  { apply (row_filepath_run dirs row "mark"); assumption. }
  assert (Hmat : row_matfile w (DataDirs dirs) row = Ok mat).
  { unfold row_matfile. rewrite Hpath. exact Hload. }
  assert (Hmag : magnitudes A iq0
                 = [Numpy.Fin (Numpy.hypot A 1 1);
                    Numpy.Fin (Numpy.hypot A 0 2)]).
  { unfold magnitudes. rewrite Hflat. cbn [map].
    rewrite !abs_finite by (apply sqrt_bound; lra). reflexivity. }
  assert (Hmax : Numpy.amax (magnitudes A iq0)
                 = Ok (Numpy.Fin (Rmax (Numpy.hypot A 1 1)
                                       (Numpy.hypot A 0 2)))).
  { rewrite Hmag. reflexivity. }
  destruct (generate_row_succeeds A w (DataDirs dirs) row mat iq0 _
              Hmat Hiq (ex_intro _ ref Href) Hmax Hcols)
    as (key & ex & Hgen).
  destruct (row_matfile_iq _ _ _ _ _ _ _ _ Hgen Hmat Hiq)
    as (m' & Hm' & HdB & Hre & Him).
  destruct (row_matfile_dtce _ _ _ _ _ _ _ _ Hgen Hmat Href)
    as (Hdtce & Hkey & Hharm').
  assert (key = "a.mat") as -> by congruence.
  assert (Hnz : Exists (fun z => z <> Numpy.finite 0 0)
                       (Numpy.reshape_flat iq0)).
  { rewrite Hflat. apply Exists_cons_hd. intros [= H _]. lra. }
  rewrite Hmax in Hm'. injection Hm' as <-.
  destruct (amax_magnitudes_positive A iq0 _ Hmax Hnz)
    as (Hpos & Hin & Hall).
  assert (H2 : Numpy.astype_single A (Numpy.Fin 2) = Numpy.Fin 2).
  { apply (round_integer _ 2). simpl. lia. }
  assert (Hharm_ex : harmonic ex = "False") by congruence.
  exists ex. split.
  { unfold _generate_examples. rewrite Hcsv.
    apply generate_rows_single. exact Hgen. }
  split.
  { rewrite Hre, Hflat. unfold astype_float32, real_part.
    cbn [map Numpy.finite Numpy.re Numpy.astype_single].
    rewrite round_one, round_zero. reflexivity. }
  split.
  { rewrite Him, Hflat. unfold astype_float32, imag_part.
    cbn [map Numpy.finite Numpy.im]. rewrite H2.
    cbn [Numpy.astype_single]. rewrite round_one. reflexivity. }
  split.
  { rewrite HdB. unfold astype_float32, decibels, magnitudes.
    rewrite !length_map, Hflat. reflexivity. }
  split.
  { rewrite HdB. apply amax_decibels_normalized; assumption. }
  split.
  { destruct (astype_unit_interval A (1 / 10)) as (d1 & Hd1 & He1); [lra|].
    destruct (astype_unit_interval A (2 / 10)) as (d2 & Hd2 & He2); [lra|].
    exists d1, d2. split; [|split; assumption].
    rewrite Hdtce, Hrflat. unfold astype_float32, real_part.
    cbn [map Numpy.finite Numpy.re]. rewrite Hd1, Hd2. reflexivity. }
  destruct (generate_row_metadata _ _ _ _ _ _ Hgen) as (Hf0' & Hv' & _).
  split; [congruence|]. split; [congruence|]. split; [exact Hharm_ex|].
  rewrite <- Hharm_ex. reflexivity.
Qed.

Lemma end_to_end_scenario_witness :
  read_csv scenario_world "/dl/mark.csv" = Ok [scenario_row] /\
  scenario_row !! "filename" = Some "a.mat" /\
  scenario_row !! "target" = Some "mark" /\
  scenario_row !! "f0" = Some "5000000" /\
  scenario_row !! "v" = Some "30" /\
  scenario_row !! "harm" = Some "False" /\
  Forall (fun c => is_Some (scenario_row !! c)) manifest_columns /\
  scenario_dirs !! "mark_data" = Some "/dl/mark" /\
  loadmat scenario_world (os_path_join "/dl/mark" "a.mat") = Ok scenario_mat /\
  scenario_mat !! "iq" = Some scenario_iq /\
  scenario_mat !! "dtce" = Some scenario_dtce /\
  exists ex,
    _generate_examples exact_arith scenario_world (DataDirs scenario_dirs)
      "/dl/mark.csv"
    = ([("a.mat", ex)], None) /\
    real (das ex) = [Numpy.Fin 1; Numpy.Fin 0] /\
    imag (das ex) = [Numpy.Fin 1; Numpy.Fin 2] /\
    length (dB (das ex)) = 2%nat /\
    Numpy.amax (dB (das ex)) = Ok (Numpy.Fin 0) /\
    harmonic ex = "False".
Proof.
  do 6 (split; [reflexivity|]). split; [exact scenario_row_columns|].
  do 4 (split; [reflexivity|]).
  destruct (end_to_end_scenario exact_arith scenario_world scenario_dirs
              "/dl/mark.csv" "/dl/mark" scenario_row scenario_mat
              scenario_iq scenario_dtce)
    as (ex & Hrun & Hre & Him & Hlen & Hmax & _ & _ & _ & Hharm & _);
    try reflexivity; [exact scenario_row_columns|].
  exists ex. repeat split; assumption.
Defined.

(** A custom split could not be read even if the lookup of ['data']
    succeeded: its [datapath] would be a path string, and the loop body
    subscripts [datapath] with ['mark_data'] or ['phantom_data']. *)
Lemma string_datapath_yields_nothing (A : Numpy.Arith) (w : World)
    (path csv : string) :
  fst (_generate_examples A w (DataStr path) csv) = [].
Proof.
  unfold _generate_examples.
  destruct (read_csv w csv) as [[|row rest]|e]; try reflexivity.
  simpl. unfold generate_row, row_filepath.
  destruct (getitem row "target"); reflexivity.
Qed.
(** * Further properties of the builder *)

(** ** The split resolver *)

(** X1: without custom splits the resolver returns one generator per
    default manifest, in the order of [_DEFAULT_SPLITS]; each has ten
    shards, the local path of its own manifest as [csvpath], and as
    [datapath] the local paths of the two archives of [_DATA_URL]. *)
Theorem default_splits_carry_resolved_paths (resolve : string -> string) :
  exists splits mark_url phantom_url,
    _split_generators resolve [] = Ok splits /\
    PyDict.get "mark_data" _DATA_URL = Ok mark_url /\
    PyDict.get "phantom_data" _DATA_URL = Ok phantom_url /\
    map name splits = PyDict.keys _DEFAULT_SPLITS /\
    map (fun s => csvpath (gen_kwargs s)) splits
    = map resolve (PyDict.values _DEFAULT_SPLITS) /\
    Forall (fun s =>
      num_shards s = 10%nat /\
      exists dirs,
        datapath (gen_kwargs s) = DataDirs dirs /\
        dom dirs = {[ "mark_data"; "phantom_data" ]} /\
        dirs !! "mark_data" = Some (resolve mark_url) /\
        dirs !! "phantom_data" = Some (resolve phantom_url)) splits.
Proof.
  eexists. eexists. eexists.
  split; [reflexivity|]. split; [reflexivity|]. split; [reflexivity|].
  split; [reflexivity|]. split; [reflexivity|].
  repeat (constructor;
          [split; [reflexivity|]; eexists; split; [reflexivity|];
           split; [|split; reflexivity]; set_solver|]).
  constructor.
Qed.

Lemma split_generators_only_default (resolve : string -> string)
    (custom : PyDict.t string) (splits : list SplitGenerator) :
  _split_generators resolve custom = Ok splits ->
  custom = [] /\ _split_generators resolve [] = Ok splits.
Proof.
  destruct custom as [|[nm csv_path] rest]; intros H.
  - split; [reflexivity | exact H].
  - discriminate H.
Qed.

(** X2: the generators the resolver returns fit the example generator:
    for every one of them, a row with a target and a filename resolves to
    the local copy of the mark archive when the target is ['mark'] and to
    the local copy of the phantom archive otherwise, joined with the
    filename; no lookup in [datapath] fails. *)
Theorem returned_splits_resolve_rows
    (resolve : string -> string) (custom : PyDict.t string)
    (splits : list SplitGenerator) (s : SplitGenerator)
    (row : gmap string string) (tgt filename mark_url phantom_url : string) :
  _split_generators resolve custom = Ok splits ->
  In s splits ->
  PyDict.get "mark_data" _DATA_URL = Ok mark_url ->
  PyDict.get "phantom_data" _DATA_URL = Ok phantom_url ->
  row !! "target" = Some tgt ->
  row !! "filename" = Some filename ->
  row_filepath (datapath (gen_kwargs s)) row
  = Ok (os_path_join
          (resolve (if String.eqb tgt "mark" then mark_url else phantom_url))
          filename).
Proof.
  intros Hsplits Hin Hmark Hphantom Htgt Hfile.
  apply split_generators_only_default in Hsplits.
  destruct Hsplits as [_ Hsplits].
  injection Hmark as <-. injection Hphantom as <-.
  injection Hsplits as <-.
  assert (Hdp : datapath (gen_kwargs s)
                = DataDirs
                    (<["mark_data" := resolve "https://research.repository.duke.edu/downloads/4x51hj56d"]>
                       (<["phantom_data" := resolve "https://research.repository.duke.edu/downloads/vt150j912"]> ∅))).
  { repeat (destruct Hin as [<-|Hin]; [reflexivity|]). destruct Hin. }
  rewrite Hdp.
  apply (row_filepath_run _ row tgt); [assumption..|].
  unfold data_key_of. destruct (String.eqb tgt "mark"); reflexivity.
Qed.

Lemma returned_splits_resolve_rows_witness :
  exists splits s,
    _split_generators cache_resolve [] = Ok splits /\
    In s splits /\
    name s = "validation" /\
    row_filepath (datapath (gen_kwargs s)) scenario_row
    = Ok "/cache/https://research.repository.duke.edu/downloads/4x51hj56d/a.mat".
Proof.
  eexists. eexists.
  split; [reflexivity|]. split; [right; right; left; reflexivity|].
  split; [reflexivity|].
  eapply (returned_splits_resolve_rows cache_resolve [] _ _ scenario_row
            "mark" "a.mat"
            "https://research.repository.duke.edu/downloads/4x51hj56d"
            "https://research.repository.duke.edu/downloads/vt150j912");
    [reflexivity | right; right; left; reflexivity | reflexivity..].
Defined.

(** ** The schema and the record *)

(** X3: every record the generator builds is laid out as the schema of
    [_info] declares: the same sixteen keys in the same order, the same
    three keys under [das], a one-dimensional array under every feature
    of shape [(None,)] and a single value under every feature of shape
    [()]. *)
Theorem record_has_the_declared_layout (ex : Example) :
  same_layout (example_dict ex) (features _info) = true.
Proof. destruct ex as [[d r i] t]. reflexivity. Qed.

(** ** Where the generator stops *)


(** X4: the generator stops at the first row that raises.  The pairs of
    the rows before it have been yielded, one per row and in order; the
    exception is the one the row raised; the rows after it play no part. *)
Theorem generator_stops_at_first_failing_row
    (A : Numpy.Arith) (w : World) (dp : datapath_t) (csv : string)
    (pre post : list (gmap string string)) (bad : gmap string string)
    (e : PyError) :
  read_csv w csv = Ok (pre ++ bad :: post) ->
  Forall (row_succeeds A w dp) pre ->
  generate_row A w dp bad = Raise e ->
  exists out,
    _generate_examples A w dp csv = (out, Some e) /\
    Forall2 (fun r kv => generate_row A w dp r = Ok kv) pre out.
Proof.
  intros Hcsv Hpre Hbad.
  destruct (generate_rows_prefix A w dp pre (bad :: post) Hpre)
    as (out & Hout & Hrun).
  exists out. split; [|exact Hout].
  unfold _generate_examples. rewrite Hcsv, Hrun. simpl. rewrite Hbad. simpl.
  rewrite app_nil_r. reflexivity.
Qed.

Lemma scenario_row_succeeds (A : Numpy.Arith) :
  row_succeeds A broken_world (DataDirs scenario_dirs) scenario_row.
Proof.
  destruct (amax_magnitudes_nonempty A scenario_iq) as [m Hm];
    [discriminate|].
  destruct (generate_row_succeeds A broken_world (DataDirs scenario_dirs)
              scenario_row scenario_mat scenario_iq m)
    as (key & ex & Hgen);
    [reflexivity | reflexivity | eexists; reflexivity | exact Hm
     | exact scenario_row_columns |].
  exists (key, ex). exact Hgen.
Qed.

Lemma generator_stops_at_first_failing_row_witness :
  read_csv broken_world "/dl/mark.csv"
  = Ok ([scenario_row] ++ blank_row :: [scenario_row]) /\
  generate_row exact_arith broken_world (DataDirs scenario_dirs) blank_row
  = Raise (KeyError "target") /\
  exists out,
    _generate_examples exact_arith broken_world (DataDirs scenario_dirs)
      "/dl/mark.csv"
    = (out, Some (KeyError "target")) /\
    length out = 1%nat.
Proof.
  split; [reflexivity|]. split; [reflexivity|].
  destruct (generator_stops_at_first_failing_row exact_arith broken_world
              (DataDirs scenario_dirs) "/dl/mark.csv"
              [scenario_row] [scenario_row] blank_row (KeyError "target"))
    as (out & Hrun & Hout).
  - reflexivity.
  - constructor; [exact (scenario_row_succeeds exact_arith) | constructor].
  - reflexivity.
  - exists out. split; [exact Hrun|].
    apply Forall2_length in Hout. symmetry. exact Hout.
Defined.

(** X5: the generator never yields more pairs than the manifest has rows,
    and it ends without an exception exactly when every row succeeds; it
    has then yielded one pair per row, in manifest order, and its keys
    are the whole filename column, repeated filenames included. *)
Theorem generator_finishes_iff_every_row_succeeds
    (A : Numpy.Arith) (w : World) (dp : datapath_t) (csv : string)
    (rows : list (gmap string string)) :
  read_csv w csv = Ok rows ->
  (length (fst (_generate_examples A w dp csv)) <= length rows)%nat /\
  (snd (_generate_examples A w dp csv) = None
   <-> Forall (row_succeeds A w dp) rows) /\
  (snd (_generate_examples A w dp csv) = None ->
   Forall2 (fun r kv => generate_row A w dp r = Ok kv)
           rows (fst (_generate_examples A w dp csv)) /\
   map Some (map fst (fst (_generate_examples A w dp csv))) = filenames rows).
Proof.
  intros Hcsv. unfold _generate_examples. rewrite Hcsv.
  split; [apply generate_rows_length|].
  split; [apply generate_rows_finished|].
  intros Hend. apply generate_rows_finished in Hend.
  destruct (generate_rows_prefix A w dp rows [] Hend) as (out & Hout & Hrun).
  rewrite app_nil_r in Hrun. simpl in Hrun. rewrite app_nil_r in Hrun.
  rewrite Hrun. simpl. split; [exact Hout|].
  clear Hrun Hend Hcsv. induction Hout as [|row [key ex] rest out Hrow _ IH].
  - reflexivity.
  - simpl. rewrite IH. f_equal.
    destruct (generate_row_Ok _ _ _ _ _ _ Hrow)
      as (p & mt & i0 & rf & mm & _ & _ & _ & _ & _ & Hkey & _).
    symmetry. exact Hkey.
Qed.

Lemma generator_finishes_iff_every_row_succeeds_witness :
  read_csv broken_world "/dl/mark.csv"
  = Ok [scenario_row; blank_row; scenario_row] /\
  (length (fst (_generate_examples exact_arith broken_world
                  (DataDirs scenario_dirs) "/dl/mark.csv")) <= 3)%nat /\
  snd (_generate_examples exact_arith broken_world (DataDirs scenario_dirs)
         "/dl/mark.csv") <> None.
Proof.
  split; [reflexivity|].
  destruct (generator_finishes_iff_every_row_succeeds exact_arith
              broken_world (DataDirs scenario_dirs) "/dl/mark.csv"
              [scenario_row; blank_row; scenario_row] eq_refl)
    as (Hlen & Hiff & _).
  split; [exact Hlen|].
  intros Hend. apply Hiff in Hend.
  apply Forall_cons in Hend. destruct Hend as [_ Hend].
  apply Forall_cons in Hend. destruct Hend as [[kv Hkv] _].
  discriminate Hkv.
Defined.

(** ** When a row raises, and what *)

Lemma row_filepath_Ok (dp : datapath_t) (row : gmap string string)
    (path : string) :
  row_filepath dp row = Ok path ->
  exists tgt dir filename,
    row !! "target" = Some tgt /\
    datapath_getitem dp (data_key_of tgt) = Ok dir /\
    row !! "filename" = Some filename /\
    path = os_path_join dir filename.
Proof.
  unfold row_filepath. intros H.
  peel H tgt Htgt. peel H dir Hdir. peel H filename Hfile.
  injection H as <-. apply getitem_Ok in Htgt. apply getitem_Ok in Hfile.
  exists tgt, dir, filename. auto.
Qed.

(** X6: a row produces a pair exactly when its matrix file can be located
    and read, holds an [iq] array with at least one sample and a [dtce]
    array, and the row has all fifteen columns.  (An all-zero [iq] array
    is no obstacle.) *)
Theorem row_succeeds_iff
    (A : Numpy.Arith) (w : World) (dp : datapath_t) (row : gmap string string) :
  row_succeeds A w dp row <->
  exists mat iq0,
    row_matfile w dp row = Ok mat /\
    mat !! "iq" = Some iq0 /\
    Numpy.reshape_flat iq0 <> [] /\
    is_Some (mat !! "dtce") /\
    Forall (fun c => is_Some (row !! c)) manifest_columns.
Proof.
  split.
  - intros [[key ex] Hgen].
    destruct (generate_row_Ok _ _ _ _ _ _ Hgen)
      as (path & mat & iq0 & ref & m & Hpath & Hmat & Hiq & Href & Hm
          & Hkey & _).
    destruct (generate_row_metadata _ _ _ _ _ _ Hgen)
      as (H1 & H2 & H3 & H4 & H5 & H6 & H7 & H8 & H9 & H10 & H11 & H12
          & H13 & H14).
    exists mat, iq0.
    split; [unfold row_matfile; rewrite Hpath; exact Hmat|].
    split; [exact Hiq|].
    split.
    { intros Hnil. apply (magnitudes_nil A) in Hnil.
      exact (amax_Ok_nonempty _ _ Hm Hnil). }
    split; [eexists; exact Href|].
    unfold manifest_columns.
    repeat (constructor; [eexists; eassumption|]). constructor.
  - intros (mat & iq0 & Hmat & Hiq & Hne & Hdtce & Hcols).
    destruct (amax_magnitudes_nonempty A iq0 Hne) as [m Hm].
    destruct (generate_row_succeeds A w dp row mat iq0 _ Hmat Hiq Hdtce Hm
                Hcols)
      as (key & ex & Hgen).
    exists (key, ex). exact Hgen.
Qed.

(** X7: an [iq] array without samples makes the row raise [ValueError]
    (the maximum of an empty array), whatever else the file and the row
    hold. *)
Theorem empty_iq_raises_ValueError
    (A : Numpy.Arith) (w : World) (dp : datapath_t) (row : gmap string string)
    (mat : gmap string Numpy.ndarray) (iq0 : Numpy.ndarray) :
  row_matfile w dp row = Ok mat ->
  mat !! "iq" = Some iq0 ->
  Numpy.reshape_flat iq0 = [] ->
  generate_row A w dp row = Raise ValueError.
Proof.
  intros Hmat Hiq Hnil. unfold row_matfile in Hmat. peel Hmat path Hpath.
  unfold generate_row, normalize, getitem.
  rewrite Hpath. cbn [bind]. rewrite Hmat. cbn [bind]. rewrite Hiq.
  cbn [bind]. apply (magnitudes_nil A) in Hnil. rewrite Hnil. reflexivity.
Qed.

Lemma empty_iq_raises_ValueError_witness :
  row_matfile empty_world (DataDirs scenario_dirs) scenario_row
  = Ok empty_mat /\
  empty_mat !! "iq" = Some [[]] /\
  Numpy.reshape_flat [[]] = @nil Numpy.complex /\
  _generate_examples exact_arith empty_world (DataDirs scenario_dirs)
    "/dl/mark.csv"
  = ([], Some ValueError).
Proof.
  do 3 (split; [reflexivity|]).
  unfold _generate_examples. simpl.
  rewrite (empty_iq_raises_ValueError exact_arith empty_world
             (DataDirs scenario_dirs)
             scenario_row empty_mat [[]]); reflexivity.
Defined.

(** X8: a matrix file without the [iq] variable makes the row raise
    [KeyError('iq')]; one with a non-empty [iq] but without [dtce] makes
    it raise [KeyError('dtce')], before any metadata column is looked at. *)
Theorem missing_array_raises_KeyError
    (A : Numpy.Arith) (w : World) (dp : datapath_t) (row : gmap string string)
    (mat : gmap string Numpy.ndarray) :
  row_matfile w dp row = Ok mat ->
  (mat !! "iq" = None -> generate_row A w dp row = Raise (KeyError "iq")) /\
  (forall iq0,
     mat !! "iq" = Some iq0 -> Numpy.reshape_flat iq0 <> [] ->
     mat !! "dtce" = None ->
     generate_row A w dp row = Raise (KeyError "dtce")).
Proof.
  intros Hmat. unfold row_matfile in Hmat. peel Hmat path Hpath.
  destruct (row_filepath_Ok _ _ _ Hpath) as (tgt & dir & f & _ & _ & Hfile & _).
  split.
  - intros Hiq. unfold generate_row, getitem.
    rewrite Hpath. cbn [bind]. rewrite Hmat. cbn [bind]. rewrite Hiq.
    reflexivity.
  - intros iq0 Hiq Hne Hdtce.
    destruct (amax_magnitudes_nonempty A iq0 Hne) as [m Hm].
    unfold generate_row, normalize, getitem.
    rewrite Hpath. cbn [bind]. rewrite Hmat. cbn [bind]. rewrite Hiq.
    cbn [bind]. rewrite Hm. cbn [bind]. rewrite Hfile. cbn [bind].
    rewrite Hdtce. reflexivity.
Qed.

Lemma missing_array_raises_KeyError_witness :
  row_matfile bare_world (DataDirs scenario_dirs) scenario_row = Ok bare_mat /\
  bare_mat !! "iq" = Some scenario_iq /\
  bare_mat !! "dtce" = None /\
  generate_row exact_arith bare_world (DataDirs scenario_dirs) scenario_row
  = Raise (KeyError "dtce").
Proof.
  do 3 (split; [reflexivity|]).
  apply (missing_array_raises_KeyError exact_arith bare_world
           (DataDirs scenario_dirs) scenario_row bare_mat eq_refl)
    with (iq0 := scenario_iq);
    [reflexivity | discriminate | reflexivity].
Defined.

(** X9: a row without a [target] column raises [KeyError('target')], and
    a row with a target but without a [filename] column raises
    [KeyError('filename')]; in both cases no file has been opened, so the
    outcome is the same in every world. *)
Theorem missing_path_column_raises_KeyError
    (A : Numpy.Arith) (w : World) (dirs : gmap string string)
    (row : gmap string string) :
  is_Some (dirs !! "mark_data") ->
  is_Some (dirs !! "phantom_data") ->
  row !! "target" = None \/ row !! "filename" = None ->
  generate_row A w (DataDirs dirs) row
  = Raise (KeyError (match row !! "target" with
                     | None => "target"
                     | Some _ => "filename"
                     end)).
Proof.
  intros [mark Hmark] [phantom Hphantom] Hmissing.
  unfold generate_row, row_filepath, datapath_getitem, getitem.
  destruct (row !! "target") as [tgt|] eqn:Htgt; [|reflexivity].
  destruct Hmissing as [Hnone|Hnone]; [discriminate|].
  cbn [bind]. unfold data_key_of.
  destruct (String.eqb tgt "mark").
  - rewrite Hmark. cbn [bind]. rewrite Hnone. reflexivity.
  - rewrite Hphantom. cbn [bind]. rewrite Hnone. reflexivity.
Qed.

Lemma missing_path_column_raises_KeyError_witness :
  is_Some (scenario_dirs !! "mark_data") /\
  is_Some (scenario_dirs !! "phantom_data") /\
  delete "filename" scenario_row !! "filename" = None /\
  generate_row exact_arith scenario_world (DataDirs scenario_dirs)
    (delete "filename" scenario_row)
  = Raise (KeyError "filename").
Proof.
  split; [eexists; reflexivity|]. split; [eexists; reflexivity|].
  split; [reflexivity|].
  rewrite (missing_path_column_raises_KeyError exact_arith scenario_world
             scenario_dirs
             (delete "filename" scenario_row));
    [reflexivity | eexists; reflexivity | eexists; reflexivity
     | right; reflexivity].
Defined.

(** X10: with the matrix file read and both arrays in order, the first
    metadata column the row lacks, in the order the record lists them
    ([f0], [v], [focus_cm], ..., [harm]), is the one the [KeyError]
    names. *)
Theorem first_missing_column_is_reported
    (A : Numpy.Arith) (w : World) (dp : datapath_t) (row : gmap string string)
    (mat : gmap string Numpy.ndarray) (iq0 : Numpy.ndarray)
    (pre post : list string) (c : string) :
  row_matfile w dp row = Ok mat ->
  mat !! "iq" = Some iq0 ->
  Numpy.reshape_flat iq0 <> [] ->
  is_Some (mat !! "dtce") ->
  metadata_columns = pre ++ c :: post ->
  Forall (fun k => is_Some (row !! k)) pre ->
  row !! c = None ->
  generate_row A w dp row = Raise (KeyError c).
Proof.
  intros Hmat Hiq Hne [ref Href] Hsplit Hpre Hc.
  unfold row_matfile in Hmat. peel Hmat path Hpath.
  destruct (row_filepath_Ok _ _ _ Hpath) as (tgt & dir & f & _ & _ & Hfile & _).
  destruct (amax_magnitudes_nonempty A iq0 Hne) as [m Hm].
  unfold generate_row, normalize, getitem.
  rewrite Hpath. cbn [bind]. rewrite Hmat. cbn [bind]. rewrite Hiq.
  cbn [bind]. rewrite Hm. cbn [bind]. rewrite Hfile. cbn [bind].
  rewrite Href. cbn [bind].
  unfold metadata_columns in Hsplit.
  repeat (destruct pre as [|k pre]; cbn [app] in Hsplit;
          [ injection Hsplit as Hhead _; subst c; rewrite Hc; reflexivity
          | injection Hsplit as Hhead Hsplit; subst k;
            apply Forall_cons in Hpre; destruct Hpre as [[? Hx] Hpre];
            rewrite Hx; clear Hx; cbn [bind] ]).
  destruct pre; cbn [app] in Hsplit; discriminate Hsplit.
Qed.

Lemma first_missing_column_is_reported_witness :
  row_matfile scenario_world (DataDirs scenario_dirs) probeless_row
  = Ok scenario_mat /\
  metadata_columns
  = [ "f0"; "v"; "focus_cm"; "axial_samples"; "lateral_samples";
      "initial_radius"; "final_radius"; "initial_angle"; "final_angle" ]
    ++ "probe" :: [ "scanner"; "target"; "timestamp_id"; "harm" ] /\
  probeless_row !! "probe" = None /\
  generate_row exact_arith scenario_world (DataDirs scenario_dirs) probeless_row
  = Raise (KeyError "probe").
Proof.
  do 3 (split; [reflexivity|]).
  apply (first_missing_column_is_reported exact_arith scenario_world
           (DataDirs scenario_dirs) probeless_row scenario_mat scenario_iq
           [ "f0"; "v"; "focus_cm"; "axial_samples"; "lateral_samples";
             "initial_radius"; "final_radius"; "initial_angle"; "final_angle" ]
           [ "scanner"; "target"; "timestamp_id"; "harm" ] "probe");
    [reflexivity | reflexivity | discriminate | eexists; reflexivity
     | reflexivity | | reflexivity].
  repeat (constructor; [eexists; reflexivity|]). constructor.
Defined.

(** ** What the dB array holds *)

Lemma gapped_amax (A : Numpy.Arith) :
  Numpy.amax (magnitudes A [[ Numpy.finite 3 4; Numpy.finite 0 0 ]])
  = Ok (Numpy.Fin (Rmax (Numpy.hypot A 3 4) 0)).
Proof.
  unfold magnitudes. cbn [Numpy.reshape_flat concat app map].
  rewrite abs_zero, abs_finite by (apply sqrt_bound; lra).
  reflexivity.
Qed.

(** X11: for a row whose IQ array has a non-zero sample and whose largest
    magnitude is finite, no entry of [das.dB] is [nan], [+inf] or
    positive: every entry is a finite value at most 0 or [-inf]; a zero
    sample has entry [-inf] and a sample of largest magnitude has entry
    exactly 0. *)
Theorem dB_entries_of_nonzero_array
    (A : Numpy.Arith) (w : World) (dp : datapath_t)
    (row : gmap string string) (key : string) (ex : Example)
    (mat : gmap string Numpy.ndarray) (iq0 : Numpy.ndarray) (mx : R) :
  generate_row A w dp row = Ok (key, ex) ->
  row_matfile w dp row = Ok mat ->
  mat !! "iq" = Some iq0 ->
  Exists (fun z => z <> Numpy.finite 0 0) (Numpy.reshape_flat iq0) ->
  Numpy.amax (magnitudes A iq0) = Ok (Numpy.Fin mx) ->
  (0 < mx)%R /\
  forall j z,
    Numpy.reshape_flat iq0 !! j = Some z ->
    exists v,
      dB (das ex) !! j = Some v /\
      at_most_zero v /\
      (z = Numpy.finite 0 0 -> v = Numpy.NInf) /\
      (Numpy.abs A z = Numpy.Fin mx -> v = Numpy.Fin 0).
Proof.
  intros Hgen Hmat Hiq Hnz Hmx.
  destruct (row_matfile_iq _ _ _ _ _ _ _ _ Hgen Hmat Hiq)
    as (m & Hm & HdB & _).
  rewrite Hmx in Hm. injection Hm as <-.
  destruct (amax_magnitudes_positive A iq0 mx Hmx Hnz)
    as (Hpos & Hin & Hall).
  split; [exact Hpos|]. intros j z Hz.
  exists (Numpy.astype_single A
            (Numpy.scale A 20
               (Numpy.log10 A
                  (Numpy.true_divide A (Numpy.abs A z) (Numpy.Fin mx))))).
  split.
  { rewrite HdB. unfold astype_float32, decibels, magnitudes.
    exact (lookup_map _ _ _ _
             (lookup_map _ _ _ _
                (lookup_map _ _ _ _ (lookup_map (Numpy.abs A) _ _ _ Hz)))). }
  rewrite List.Forall_forall in Hall.
  destruct (Hall (Numpy.abs A z)) as (x & Habs & Hx0 & Hxm).
  { unfold magnitudes. apply in_map. apply list_elem_of_In.
    apply list_elem_of_lookup. eauto. }
  rewrite Habs. split; [apply decibel_at_most_zero; assumption|]. split.
  - intros ->. rewrite abs_zero in Habs. injection Habs as <-.
    apply decibel_of_zero. exact Hpos.
  - intros [= ->]. apply decibel_of_maximum. exact Hpos.
Qed.

Lemma dB_entries_of_nonzero_array_witness :
  exists ex,
    generate_row exact_arith gapped_world (DataDirs scenario_dirs)
      scenario_row
    = Ok ("a.mat", ex) /\
    Exists (fun z => z <> Numpy.finite 0 0)
           (Numpy.reshape_flat [[ Numpy.finite 3 4; Numpy.finite 0 0 ]]) /\
    Numpy.amax (magnitudes exact_arith
                  [[ Numpy.finite 3 4; Numpy.finite 0 0 ]])
    = Ok (Numpy.Fin (Rmax (Numpy.hypot exact_arith 3 4) 0)) /\
    dB (das ex) !! 1%nat = Some Numpy.NInf.
Proof.
  destruct (scenario_row_runs exact_arith gapped_mat
              [[ Numpy.finite 3 4; Numpy.finite 0 0 ]])
    as (ex & Hgen);
    [reflexivity | discriminate | eexists; reflexivity |].
  assert (Hnz : Exists (fun z => z <> Numpy.finite 0 0)
                  (Numpy.reshape_flat
                     [[ Numpy.finite 3 4; Numpy.finite 0 0 ]])).
  { apply Exists_cons_hd. intros [= H _]. lra. }
  exists ex. split; [exact Hgen|]. split; [exact Hnz|].
  split; [exact (gapped_amax exact_arith)|].
  destruct (dB_entries_of_nonzero_array exact_arith gapped_world
              (DataDirs scenario_dirs) scenario_row "a.mat" ex gapped_mat
              [[ Numpy.finite 3 4; Numpy.finite 0 0 ]] _
              Hgen eq_refl eq_refl Hnz (gapped_amax exact_arith))
    as (_ & Hentries).
  destruct (Hentries 1%nat (Numpy.finite 0 0) eq_refl)
    as (v & Hv & _ & Hzero & _).
  rewrite Hv, (Hzero eq_refl). reflexivity.
Defined.

(** ** What the record holds besides the dB array *)

(** X13: every scalar field of an emitted record is the text of one
    column of its manifest row, unparsed: [f0_hz] is [f0], [voltage] is
    [v], [height] is [axial_samples], [width] is [lateral_samples],
    [harmonic] is [harm], and the other nine fields are the columns of
    the same name. *)
Theorem scalar_fields_are_the_row_columns
    (A : Numpy.Arith) (w : World) (dp : datapath_t) (csv : string) (i : nat)
    (row : gmap string string) (key : string) (ex : Example) :
  emitted A w dp csv i row (key, ex) ->
  row !! "f0" = Some (f0_hz ex) /\
  row !! "v" = Some (voltage ex) /\
  row !! "focus_cm" = Some (focus_cm ex) /\
  row !! "axial_samples" = Some (height ex) /\
  row !! "lateral_samples" = Some (width ex) /\
  row !! "initial_radius" = Some (initial_radius ex) /\
  row !! "final_radius" = Some (final_radius ex) /\
  row !! "initial_angle" = Some (initial_angle ex) /\
  row !! "final_angle" = Some (final_angle ex) /\
  row !! "probe" = Some (probe ex) /\
  row !! "scanner" = Some (scanner ex) /\
  row !! "target" = Some (target ex) /\
  row !! "timestamp_id" = Some (timestamp_id ex) /\
  row !! "harm" = Some (harmonic ex).
Proof.
  intros Hem. apply emitted_generate_row in Hem.
  exact (generate_row_metadata _ _ _ _ _ _ Hem).
Qed.

Lemma scalar_fields_are_the_row_columns_witness :
  exists ex,
    emitted exact_arith scenario_world (DataDirs scenario_dirs)
      "/dl/mark.csv" 0 scenario_row ("a.mat", ex) /\
    height ex = "1" /\ width ex = "2" /\ target ex = "mark".
Proof.
  destruct (scenario_emitted exact_arith) as [ex Hem].
  exists ex. split; [exact Hem|].
  destruct (scalar_fields_are_the_row_columns _ _ _ _ _ _ _ _ Hem)
    as (_ & _ & _ & Hh & Hw & _ & _ & _ & _ & _ & _ & Ht & _).
  assert (Hax : scenario_row !! "axial_samples" = Some "1") by reflexivity.
  assert (Hlat : scenario_row !! "lateral_samples" = Some "2") by reflexivity.
  assert (Htgt : scenario_row !! "target" = Some "mark") by reflexivity.
  rewrite Hax in Hh. rewrite Hlat in Hw. rewrite Htgt in Ht.
  injection Hh as <-. injection Hw as <-. injection Ht as <-.
  repeat split.
Defined.

(** X14: [dtce] is the flattened reference array cast to single
    precision entry by entry, neither normalised nor log-compressed: a
    finite entry is within the single-precision rounding error of the
    stored value.  Its length is the reference array's own, whatever the
    length of the IQ array (the two are not compared). *)
Theorem dtce_is_the_flattened_reference
    (A : Numpy.Arith) (w : World) (dp : datapath_t)
    (row : gmap string string) (key : string) (ex : Example)
    (mat : gmap string Numpy.ndarray) (iq0 ref : Numpy.ndarray) :
  generate_row A w dp row = Ok (key, ex) ->
  row_matfile w dp row = Ok mat ->
  mat !! "iq" = Some iq0 ->
  mat !! "dtce" = Some ref ->
  length (dtce ex) = length (Numpy.reshape_flat ref) /\
  length (dB (das ex)) = length (Numpy.reshape_flat iq0) /\
  forall j z,
    Numpy.reshape_flat ref !! j = Some z ->
    dtce ex !! j = Some (Numpy.astype_single A (Numpy.re z)) /\
    (forall r d : R,
       Numpy.re z = Numpy.Fin r ->
       dtce ex !! j = Some (Numpy.Fin d) ->
       (Rabs (d - r)
        <= Numpy.unit_roundoff (Numpy.single A) * Rabs r
           + Numpy.tiny (Numpy.single A))%R).
Proof.
  intros Hgen Hmat Hiq Href.
  destruct (row_matfile_dtce _ _ _ _ _ _ _ _ Hgen Hmat Href) as (Hdtce & _).
  destruct (row_matfile_iq _ _ _ _ _ _ _ _ Hgen Hmat Hiq)
    as (m & _ & HdB & _).
  rewrite Hdtce, HdB. unfold astype_float32, real_part, decibels, magnitudes.
  rewrite !length_map. split; [reflexivity|]. split; [reflexivity|].
  intros j z Hz.
  assert (Hj : map (Numpy.astype_single A)
                   (map Numpy.re (Numpy.reshape_flat ref)) !! j
               = Some (Numpy.astype_single A (Numpy.re z))).
  { exact (lookup_map _ _ _ _ (lookup_map Numpy.re _ _ _ Hz)). }
  split; [exact Hj|].
  intros r d Hr Hd. rewrite Hj, Hr in Hd. injection Hd as Hd.
  exact (round_Fin _ _ _ Hd).
Qed.

Lemma dtce_is_the_flattened_reference_witness :
  exists (ex : Example) (d : R),
    generate_row exact_arith short_ref_world (DataDirs scenario_dirs)
      scenario_row
    = Ok ("a.mat", ex) /\
    dtce ex !! 0%nat = Some (Numpy.Fin d) /\
    (Rabs (d - 1 / 2)
     <= Numpy.unit_roundoff (Numpy.single exact_arith) * Rabs (1 / 2)
        + Numpy.tiny (Numpy.single exact_arith))%R /\
    length (dtce ex) = 1%nat /\
    length (dB (das ex)) = 2%nat.
Proof.
  destruct (scenario_row_runs exact_arith short_ref_mat scenario_iq)
    as (ex & Hgen);
    [reflexivity | discriminate | eexists; reflexivity |].
  destruct (dtce_is_the_flattened_reference exact_arith short_ref_world
              (DataDirs scenario_dirs) scenario_row "a.mat" ex short_ref_mat
              scenario_iq [[ Numpy.finite (1 / 2) 0 ]]
              Hgen eq_refl eq_refl eq_refl)
    as (Hlen & HlenB & Hentries).
  destruct (Hentries 0%nat (Numpy.finite (1 / 2) 0) eq_refl)
    as (Hd & Herr).
  destruct (astype_unit_interval exact_arith (1 / 2)) as (d & Hcast & _);
    [lra|].
  cbn [Numpy.finite Numpy.re] in Hd. rewrite Hcast in Hd.
  exists ex, d. split; [exact Hgen|]. split; [exact Hd|].
  split; [exact (Herr (1 / 2)%R d eq_refl Hd)|].
  split; [exact Hlen | exact HlenB].
Defined.

(** ** What the generator reads *)

(** X15: the loop body reads nothing but the fifteen manifest columns of
    the row and the [iq] and [dtce] variables of the matrix file: two
    rows that agree on those columns, read against matrix files that
    agree on those two variables (or fail alike), give the same pair or
    the same exception. *)
Theorem only_known_columns_and_arrays_are_read
    (A : Numpy.Arith) (w1 w2 : World) (dp : datapath_t)
    (row1 row2 : gmap string string) :
  Forall (fun c => row1 !! c = row2 !! c) manifest_columns ->
  (forall path, row_filepath dp row1 = Ok path ->
                same_arrays (loadmat w1 path) (loadmat w2 path)) ->
  generate_row A w1 dp row1 = generate_row A w2 dp row2.
Proof.
  intros Hcols Hfiles. unfold manifest_columns in Hcols.
  repeat (apply Forall_cons in Hcols; destruct Hcols as [? Hcols]).
  assert (Hpath : row_filepath dp row2 = row_filepath dp row1).
  { unfold row_filepath, getitem.
    repeat match goal with
           | H : row1 !! _ = row2 !! _ |- _ => rewrite <- H; clear H
           end.
    reflexivity. }
  unfold generate_row. rewrite Hpath.
  destruct (row_filepath dp row1) as [path|e]; [|reflexivity].
  specialize (Hfiles path eq_refl). unfold same_arrays in Hfiles.
  cbn [bind].
  destruct (loadmat w1 path) as [m1|e1], (loadmat w2 path) as [m2|e2];
    try contradiction.
  - destruct Hfiles as [Hiq Hdtce]. cbn [bind]. unfold getitem.
    rewrite Hiq, Hdtce.
    repeat match goal with
           | H : row1 !! _ = row2 !! _ |- _ => rewrite H; clear H
           end.
    reflexivity.
  - subst e2. reflexivity.
Qed.

Lemma only_known_columns_and_arrays_are_read_witness :
  Forall (fun c => scenario_row !! c = annotated_row !! c) manifest_columns /\
  scenario_row <> annotated_row /\
  scenario_mat <> annotated_mat /\
  generate_row exact_arith scenario_world (DataDirs scenario_dirs) scenario_row
  = generate_row exact_arith annotated_world (DataDirs scenario_dirs)
      annotated_row.
Proof.
  assert (Hcols : Forall (fun c => scenario_row !! c = annotated_row !! c)
                         manifest_columns).
  { unfold manifest_columns. repeat (constructor; [reflexivity|]).
    constructor. }
  split; [exact Hcols|].
  split.
  { intros Heq.
    assert (H : scenario_row !! "comment" = annotated_row !! "comment")
      by (rewrite <- Heq; reflexivity).
    discriminate H. }
  split.
  { intros Heq.
    assert (H : scenario_mat !! "__header__" = annotated_mat !! "__header__")
      by (rewrite <- Heq; reflexivity).
    discriminate H. }
  apply (only_known_columns_and_arrays_are_read exact_arith scenario_world
           annotated_world (DataDirs scenario_dirs) scenario_row
           annotated_row Hcols).
  intros path Hpath. rewrite scenario_row_filepath in Hpath.
  injection Hpath as <-. split; reflexivity.
Defined.

(** ** Where a row's matrix file is looked for *)

Lemma prefix_append (a b : string) : String.prefix a (String.append a b) = true.
Proof.
  induction a as [|c a IH]; simpl; [destruct b; reflexivity|].
  destruct (ascii_dec c c) as [_|Hne]; [exact IH | contradiction].
Qed.

(** X16: a filename that does not start with ['/'] is looked for under
    the selected data directory: the path begins with the directory and
    ends with the filename, with one ['/'] put between them unless the
    directory is empty or already ends with one.  A filename that starts
    with ['/'] is used as it is, and the data directory plays no part. *)
Theorem resolved_path_shape
    (dirs : gmap string string) (row : gmap string string)
    (tgt filename dir : string) :
  row !! "target" = Some tgt ->
  row !! "filename" = Some filename ->
  dirs !! data_key_of tgt = Some dir ->
  exists path,
    row_filepath (DataDirs dirs) row = Ok path /\
    (starts_with_sep filename = true -> path = filename) /\
    (starts_with_sep filename = false ->
     String.prefix dir path = true /\
     exists sep,
       path = String.append dir (String.append sep filename) /\
       (sep = "/" <-> (dir <> "" /\ ends_with_sep dir = false)) /\
       (sep = "" <-> (dir = "" \/ ends_with_sep dir = true))).
Proof.
  intros Htgt Hfile Hdir. exists (os_path_join dir filename).
  split; [apply (row_filepath_run dirs row tgt); assumption|].
  unfold os_path_join. split; intros Hsep; rewrite Hsep; [reflexivity|].
  destruct (String.eqb_spec dir "") as [Hempty|Hnonempty]; simpl.
  - split; [apply prefix_append|]. exists "". subst dir. simpl.
    split; [reflexivity|]. split.
    + split; [discriminate | intros [Hne _]; contradiction].
    + split; [auto | reflexivity].
  - destruct (ends_with_sep dir) eqn:Hend.
    + split; [apply prefix_append|]. exists "".
      split; [reflexivity|]. split.
      * split; [discriminate | intros [_ Hf]; discriminate].
      * split; [auto | reflexivity].
    + split; [apply prefix_append|]. exists "/".
      split; [reflexivity|]. split.
      * split; [auto | reflexivity].
      * split; [discriminate | intros [He|Ht]; [contradiction | discriminate]].
Qed.

Lemma resolved_path_shape_witness :
  absolute_row !! "target" = Some "mark" /\
  absolute_row !! "filename" = Some "/tmp/a.mat" /\
  scenario_dirs !! data_key_of "mark" = Some "/dl/mark" /\
  row_filepath (DataDirs scenario_dirs) absolute_row = Ok "/tmp/a.mat".
Proof.
  do 3 (split; [reflexivity|]).
  destruct (resolved_path_shape scenario_dirs absolute_row
              "mark" "/tmp/a.mat" "/dl/mark" eq_refl eq_refl eq_refl)
    as (path & Hpath & Habs & _).
  rewrite Hpath, (Habs eq_refl). reflexivity.
Defined.

(** ** More on the dB array *)

(** X18: [das.dB] depends on the samples only through their magnitudes:
    two rows whose IQ arrays have, sample for sample, the same magnitude
    (whatever the phases) get the same [das.dB]. *)
Theorem dB_ignores_phase
    (A : Numpy.Arith) (w1 w2 : World) (dp1 dp2 : datapath_t)
    (row1 row2 : gmap string string)
    (key1 key2 : string) (ex1 ex2 : Example)
    (mat1 mat2 : gmap string Numpy.ndarray) (iq1 iq2 : Numpy.ndarray) :
  generate_row A w1 dp1 row1 = Ok (key1, ex1) ->
  generate_row A w2 dp2 row2 = Ok (key2, ex2) ->
  row_matfile w1 dp1 row1 = Ok mat1 -> mat1 !! "iq" = Some iq1 ->
  row_matfile w2 dp2 row2 = Ok mat2 -> mat2 !! "iq" = Some iq2 ->
  map (Numpy.abs A) (Numpy.reshape_flat iq2)
  = map (Numpy.abs A) (Numpy.reshape_flat iq1) ->
  dB (das ex2) = dB (das ex1).
Proof.
  intros Hgen1 Hgen2 Hmat1 Hiq1 Hmat2 Hiq2 Hmod.
  destruct (row_matfile_iq _ _ _ _ _ _ _ _ Hgen1 Hmat1 Hiq1)
    as (m1 & Hm1 & HdB1 & _).
  destruct (row_matfile_iq _ _ _ _ _ _ _ _ Hgen2 Hmat2 Hiq2)
    as (m2 & Hm2 & HdB2 & _).
  assert (Hmag : magnitudes A iq2 = magnitudes A iq1) by exact Hmod.
  rewrite Hmag in Hm2, HdB2. rewrite Hm1 in Hm2. injection Hm2 as <-.
  rewrite HdB1, HdB2. reflexivity.
Qed.

Lemma dB_ignores_phase_witness :
  exists ex1 ex2,
    generate_row exact_arith scenario_world (DataDirs scenario_dirs)
      scenario_row
    = Ok ("a.mat", ex1) /\
    generate_row exact_arith mirrored_world (DataDirs scenario_dirs)
      scenario_row
    = Ok ("a.mat", ex2) /\
    imag (das ex2) <> imag (das ex1) /\
    dB (das ex2) = dB (das ex1).
Proof.
  destruct (scenario_row_runs exact_arith scenario_mat scenario_iq)
    as (ex1 & Hgen1);
    [reflexivity | discriminate | eexists; reflexivity |].
  destruct (scenario_row_runs exact_arith mirrored_mat
              [[ Numpy.finite 1 (-1); Numpy.finite 0 (-2) ]])
    as (ex2 & Hgen2);
    [reflexivity | discriminate | eexists; reflexivity |].
  exists ex1, ex2.
  split; [exact Hgen1|]. split; [exact Hgen2|]. split.
  - destruct (row_matfile_iq exact_arith _ _ _ _ _ scenario_mat scenario_iq
                Hgen1 eq_refl eq_refl) as (m1 & _ & _ & _ & Him1).
    destruct (row_matfile_iq exact_arith _ _ _ _ _ mirrored_mat
                [[ Numpy.finite 1 (-1); Numpy.finite 0 (-2) ]]
                Hgen2 eq_refl eq_refl) as (m2 & _ & _ & _ & Him2).
    rewrite Him1, Him2. unfold astype_float32, imag_part, scenario_iq.
    cbn [Numpy.reshape_flat concat app map Numpy.finite Numpy.im].
    replace (Numpy.astype_single exact_arith (Numpy.Fin (-1)))
      with (Numpy.Fin (-1))
      by (symmetry; apply (round_integer _ (-1)); simpl; lia).
    replace (Numpy.astype_single exact_arith (Numpy.Fin 1))
      with (Numpy.Fin 1) by (symmetry; apply round_one).
    intros [= H _]. lra.
  - apply (dB_ignores_phase exact_arith scenario_world mirrored_world
             _ _ _ _ _ _ _ _ scenario_mat mirrored_mat scenario_iq
             [[ Numpy.finite 1 (-1); Numpy.finite 0 (-2) ]]
             Hgen1 Hgen2 eq_refl eq_refl eq_refl eq_refl).
    unfold scenario_iq. cbn [Numpy.reshape_flat concat app map].
    rewrite !exact_abs.
    replace (1 * 1 + -1 * -1)%R with (1 * 1 + 1 * 1)%R by lra.
    replace (0 * 0 + -2 * -2)%R with (0 * 0 + 2 * 2)%R by lra.
    reflexivity.
Defined.

(** ** The order of the samples *)

Lemma reshape_flat_length (a : Numpy.ndarray) (wd : nat) :
  Forall (fun l => length l = wd) a ->
  length (Numpy.reshape_flat a) = (length a * wd)%nat.
Proof.
  unfold Numpy.reshape_flat. induction 1 as [|l a Hl _ IH]; [reflexivity|].
  cbn [concat length]. rewrite length_app, Hl, IH. simpl. reflexivity.
Qed.

Lemma reshape_flat_lookup (a : Numpy.ndarray) (wd r c : nat)
    (line : list Numpy.complex) (z : Numpy.complex) :
  Forall (fun l => length l = wd) a ->
  a !! r = Some line -> line !! c = Some z ->
  Numpy.reshape_flat a !! (r * wd + c)%nat = Some z.
Proof.
  unfold Numpy.reshape_flat. intros Hrect. revert r.
  induction Hrect as [|l a Hl _ IH]; intros r Hline Hz.
  - discriminate Hline.
  - cbn [concat]. destruct r as [|r].
    + injection Hline as ->. simpl. apply lookup_app_l_Some. exact Hz.
    + simpl in Hline. rewrite lookup_app_r by (rewrite Hl; simpl; lia).
      rewrite Hl. replace (S r * wd + c - wd)%nat with (r * wd + c)%nat
        by (simpl; lia).
      exact (IH r Hline Hz).
Qed.


(** X19: the samples are laid out row by row.  For a matrix whose rows
    all have [wd] samples, the sample in row [r], column [c] is at index
    [r * wd + c] of [das.real], [das.imag] and [das.dB] alike, and each
    of the three has [rows * wd] entries. *)
Theorem samples_are_laid_out_row_by_row
    (A : Numpy.Arith) (w : World) (dp : datapath_t)
    (row : gmap string string) (key : string) (ex : Example)
    (mat : gmap string Numpy.ndarray) (iq0 : Numpy.ndarray)
    (wd r c : nat) (line : list Numpy.complex) (z : Numpy.complex) :
  generate_row A w dp row = Ok (key, ex) ->
  row_matfile w dp row = Ok mat ->
  mat !! "iq" = Some iq0 ->
  Forall (fun l => length l = wd) iq0 ->
  iq0 !! r = Some line ->
  line !! c = Some z ->
  real (das ex) !! (r * wd + c)%nat
  = Some (Numpy.astype_single A (Numpy.re z)) /\
  imag (das ex) !! (r * wd + c)%nat
  = Some (Numpy.astype_single A (Numpy.im z)) /\
  (exists m,
     Numpy.amax (magnitudes A iq0) = Ok m /\
     dB (das ex) !! (r * wd + c)%nat
     = Some (Numpy.astype_single A
               (Numpy.scale A 20
                  (Numpy.log10 A
                     (Numpy.true_divide A (Numpy.abs A z) m))))) /\
  length (real (das ex)) = (length iq0 * wd)%nat /\
  length (imag (das ex)) = (length iq0 * wd)%nat /\
  length (dB (das ex)) = (length iq0 * wd)%nat.
Proof.
  intros Hgen Hmat Hiq Hrect Hline Hz.
  destruct (row_matfile_iq _ _ _ _ _ _ _ _ Hgen Hmat Hiq)
    as (m & Hm & HdB & Hre & Him).
  pose proof (reshape_flat_lookup iq0 wd r c line z Hrect Hline Hz) as Hflat.
  pose proof (reshape_flat_length iq0 wd Hrect) as Hlen.
  rewrite Hre, Him, HdB.
  unfold astype_float32, real_part, imag_part, decibels, magnitudes.
  rewrite !length_map, Hlen.
  split; [exact (lookup_map _ _ _ _ (lookup_map Numpy.re _ _ _ Hflat))|].
  split; [exact (lookup_map _ _ _ _ (lookup_map Numpy.im _ _ _ Hflat))|].
  split; [|auto].
  exists m. split; [exact Hm|].
  exact (lookup_map _ _ _ _
           (lookup_map _ _ _ _
              (lookup_map _ _ _ _
                 (lookup_map (Numpy.abs A) _ _ _ Hflat)))).
Qed.

Lemma samples_are_laid_out_row_by_row_witness :
  exists ex,
    generate_row exact_arith scenario_world (DataDirs scenario_dirs)
      scenario_row
    = Ok ("a.mat", ex) /\
    Forall (fun l => length l = 2%nat) scenario_iq /\
    scenario_iq !! 0%nat = Some [ Numpy.finite 1 1; Numpy.finite 0 2 ] /\
    real (das ex) !! 1%nat = Some (Numpy.Fin 0) /\
    imag (das ex) !! 1%nat = Some (Numpy.Fin 2) /\
    length (dB (das ex)) = 2%nat.
Proof.
  destruct (scenario_row_runs exact_arith scenario_mat scenario_iq)
    as (ex & Hgen);
    [reflexivity | discriminate | eexists; reflexivity |].
  assert (Hrect : Forall (fun l => length l = 2%nat) scenario_iq).
  { constructor; [reflexivity | constructor]. }
  exists ex. split; [exact Hgen|]. split; [exact Hrect|].
  split; [reflexivity|].
  destruct (samples_are_laid_out_row_by_row exact_arith scenario_world
              (DataDirs scenario_dirs) scenario_row "a.mat" ex scenario_mat
              scenario_iq 2 0 1 [ Numpy.finite 1 1; Numpy.finite 0 2 ]
              (Numpy.finite 0 2) Hgen eq_refl eq_refl Hrect eq_refl eq_refl)
    as (Hre & Him & _ & _ & _ & Hlen).
  cbn [Numpy.finite Numpy.re Numpy.im] in Hre, Him.
  replace (Numpy.astype_single exact_arith (Numpy.Fin 0))
    with (Numpy.Fin 0) in Hre by (symmetry; apply round_zero).
  replace (Numpy.astype_single exact_arith (Numpy.Fin 2))
    with (Numpy.Fin 2) in Him
    by (symmetry; apply (round_integer _ 2); simpl; lia).
  split; [exact Hre|]. split; [exact Him|]. exact Hlen.
Defined.

(** ** What the resolver asks of the download manager *)

(** X20: the resolver consults the download manager for the eight fixed
    URLs and for nothing else: two download managers that resolve those
    eight alike give the same answer, whatever custom splits are
    supplied (their CSV paths are never handed to the download manager). *)
Theorem resolver_asks_only_for_the_fixed_urls
    (resolve1 resolve2 : string -> string) (custom : PyDict.t string) :
  (forall url,
     In url (PyDict.values (PyDict.merge _DEFAULT_SPLITS _DATA_URL)) ->
     resolve1 url = resolve2 url) ->
  _split_generators resolve1 custom = _split_generators resolve2 custom.
Proof.
  intros Hsame.
  assert (Hall : Forall (fun url => resolve1 url = resolve2 url)
                   (PyDict.values (PyDict.merge _DEFAULT_SPLITS _DATA_URL))).
  { apply List.Forall_forall. exact Hsame. }
  cbn in Hall.
  repeat (apply Forall_cons in Hall; destruct Hall as [? Hall]).
  destruct custom as [|[nm csv_path] rest]; [|reflexivity].
  cbn.
  repeat match goal with
         | H : resolve1 _ = resolve2 _ |- _ => rewrite H; clear H
         end.
  reflexivity.
Qed.

Lemma resolver_asks_only_for_the_fixed_urls_witness :
  cache_resolve "https://example.org/extra.csv"
  <> picky_resolve "https://example.org/extra.csv" /\
  _split_generators cache_resolve [] = _split_generators picky_resolve [].
Proof.
  split; [discriminate|].
  apply (resolver_asks_only_for_the_fixed_urls cache_resolve picky_resolve []).
  intros url Hin. cbn in Hin.
  repeat (destruct Hin as [<-|Hin]; [reflexivity|]). destruct Hin.
Defined.
